(** * The to-frames operator: parameter adapter of [ToFramesOperator.execute]

    A shallow embedding of [src/__init__.py].  The operator reads a
    dynamically typed parameter dictionary, parses three "width,height"
    strings, normalises three optional strings, coerces five flags and
    calls [ctx.view.to_frames] once; it answers with the length of the
    view that call returned.

    Python strings are embedded as [string]; a character stands for a
    code point in the range U+0000..U+00FF.  Python's [int] is unbounded
    and is embedded as [Z]; [int()] on a string keeps the interpreter's
    default limit of 4300 digits. *)

From Stdlib Require Import ZArith NArith List Ascii String Bool Lia.
From Stdlib Require Import DecimalString.
From stdpp Require Import base option gmap strings.

Local Open Scope Z_scope.

(** ** Values, exceptions and results *)

(** The values a parameter dictionary can hold.  A float is kept as its
    IEEE-754 binary64 bit pattern: the operator only tests floats for
    truth and hands them on. *)
#[warnings="-register-all"]
Inductive value : Type :=
| VNone
| VBool (b : bool)
| VInt (z : Z)
| VFloat (bits : Z)
| VStr (s : string)
| VList (items : list value)
| VDict (entries : list (string * value)).

(** A raised exception: the name of its class and its message. *)
Record exn : Type := Exn { exn_class : string; exn_msg : string }.

Definition ValueError (msg : string) : exn := Exn "ValueError" msg.
Definition AttributeError (msg : string) : exn := Exn "AttributeError" msg.

(** The outcome of evaluating an expression that may raise. *)
Inductive result (A : Type) : Type :=
| Ok (a : A)
| Raise (e : exn).
Arguments Ok {A} a.
Arguments Raise {A} e.

Definition rbind {A B : Type} (r : result A) (k : A -> result B) : result B :=
  match r with
  | Ok a => k a
  | Raise e => Raise e
  end.

(** ** Built-ins used by the operator *)

Module Py.

(** Python's truth test ([not x], [bool(x)], [x or y]). *)
Definition truthy (v : value) : bool :=
  match v with
  | VNone => false
  | VBool b => b
  | VInt z => negb (z =? 0)
  | VFloat bits => negb (Z.land bits (2 ^ 63 - 1) =? 0)
  | VStr s => negb (String.eqb s "")
  | VList items => match items with [] => false | _ => true end
  | VDict entries => match entries with [] => false | _ => true end
  end.

(** [x or None]. *)
Definition or_none (v : value) : value := if truthy v then v else VNone.

(** [type(x).__name__], as it appears in error messages. *)
Definition type_name (v : value) : string :=
  match v with
  | VNone => "NoneType"
  | VBool _ => "bool"
  | VInt _ => "int"
  | VFloat _ => "float"
  | VStr _ => "str"
  | VList _ => "list"
  | VDict _ => "dict"
  end.

Definition code (c : ascii) : N := N_of_ascii c.

(** The characters [str.strip()] removes: those for which
    [str.isspace] holds, here on U+0000..U+00FF. *)
Definition isspace (c : ascii) : bool :=
  let n := code c in
  ((9 <=? n) && (n <=? 13) || (28 <=? n) && (n <=? 32)
   || (n =? 133) || (n =? 160))%N.

(** [s.lstrip()], [s.rstrip()], [s.strip()]. *)
Fixpoint lstrip (s : string) : string :=
  match s with
  | EmptyString => EmptyString
  | String c s' => if isspace c then lstrip s' else s
  end.

Fixpoint rstrip (s : string) : string :=
  match s with
  | EmptyString => EmptyString
  | String c s' =>
      match rstrip s' with
      | EmptyString => if isspace c then EmptyString else String c EmptyString
      | r => String c r
      end
  end.

Definition strip (s : string) : string := rstrip (lstrip s).

(** [s.split(sep)] for a one-character separator: one more part than
    there are separators, empty parts kept. *)
Fixpoint split (sep : ascii) (s : string) : list string :=
  match s with
  | EmptyString => [EmptyString]
  | String c s' =>
      if Ascii.eqb c sep then EmptyString :: split sep s'
      else match split sep s' with
           | p :: ps => String c p :: ps
           | [] => [String c EmptyString]
           end
  end.

(** *** [repr] of a string *)

Definition hex_digit (n : N) : ascii :=
  ascii_of_N (if (n <? 10)%N then 48 + n else 87 + n).

Definition hex_escape (c : ascii) : string :=
  String "\" (String "x" (String (hex_digit (code c / 16))
                            (String (hex_digit (code c mod 16)) EmptyString))).

(** [str.isprintable] on one character above U+007F, in U+0080..U+00FF:
    the C1 controls, the no-break space and the soft hyphen are not. *)
Definition high_printable (c : ascii) : bool :=
  let n := code c in ((160 <? n) && negb (n =? 173))%N.

Fixpoint has_char (q : ascii) (s : string) : bool :=
  match s with
  | EmptyString => false
  | String c s' => Ascii.eqb c q || has_char q s'
  end.

(** The quote [repr] wraps a string in: a double quote exactly when
    the string holds a single quote and no double quote. *)
Definition dquote : ascii := "034"%char.

Definition repr_quote (s : string) : ascii :=
  if has_char "'" s && negb (has_char dquote s) then dquote else "'"%char.

Definition repr_char (quote c : ascii) : string :=
  let n := code c in
  if Ascii.eqb c quote || Ascii.eqb c "\" then String "\" (String c EmptyString)
  else if (n =? 9)%N then "\t"
  else if (n =? 10)%N then "\n"
  else if (n =? 13)%N then "\r"
  else if ((n <? 32) || (n =? 127))%N then hex_escape c
  else if (n <? 127)%N then String c EmptyString
  else if high_printable c then String c EmptyString
  else hex_escape c.

Fixpoint repr_body (quote : ascii) (s : string) : string :=
  match s with
  | EmptyString => EmptyString
  | String c s' => repr_char quote c +:+ repr_body quote s'
  end.

Definition repr (s : string) : string :=
  let q := repr_quote s in
  String q (repr_body q s +:+ String q EmptyString).

(** The first [n] characters of [s] (a [%.nR] conversion). *)
Fixpoint truncate (n : nat) (s : string) : string :=
  match n, s with
  | S n', String c s' => String c (truncate n' s')
  | _, _ => EmptyString
  end.

(** *** [int(s)] for a string, base ten *)

(** The error [int()] raises on a string it cannot read: the message
    quotes the [repr] of the string, cut after 200 characters. *)
Definition int_message (s : string) : string :=
  "invalid literal for int() with base 10: " +:+ truncate 200 (repr s).

Definition int_error (s : string) : exn := ValueError (int_message s).

(** The interpreter's limit on the digits [int()] converts, at its
    default ([sys.get_int_max_str_digits()]; zero would switch it off),
    and the count of digits up to which the limit is not looked at. *)
Definition int_max_str_digits : nat := 4300.

Definition int_str_digits_threshold : nat := 640.

(** A count in decimal, as [%d] prints it. *)
Definition decimal (n : nat) : string := NilEmpty.string_of_uint (Nat.to_uint n).

(** The error [int()] raises on a string with too many digits: the
    message gives the limit and the number of digits, not the string. *)
Definition int_limit_message (n : nat) : string :=
  "Exceeds the limit (" +:+ decimal int_max_str_digits +:+
  " digits) for integer string conversion: value has " +:+ decimal n +:+
  " digits; use sys.set_int_max_str_digits() to increase the limit".

Definition int_limit_error (n : nat) : exn := ValueError (int_limit_message n).

Definition over_limit (n : nat) : bool :=
  Nat.ltb int_str_digits_threshold n && Nat.ltb 0 int_max_str_digits
  && Nat.ltb int_max_str_digits n.

(** White space [int()] skips at either end: the C locale's blanks,
    and the non-ASCII spaces, which are first turned into blanks. *)
Definition int_space (c : ascii) : bool :=
  let n := code c in
  ((9 <=? n) && (n <=? 13) || (n =? 32) || (n =? 133) || (n =? 160))%N.

Fixpoint skip_space (s : string) : string :=
  match s with
  | EmptyString => EmptyString
  | String c s' => if int_space c then skip_space s' else s
  end.

Definition digit_value (c : ascii) : option Z :=
  let n := code c in
  if ((48 <=? n) && (n <=? 57))%N then Some (Z.of_N n - 48) else None.

(** The run of digits, single underscores allowed between two digits.
    [prev_us] tells whether the previous character was an underscore;
    the answer is the value read, the number of digits read and what
    follows the run; [None] when two underscores meet or the run ends
    in one. *)
Fixpoint scan_digits (prev_us : bool) (acc : Z) (n : nat) (s : string)
  : option (Z * nat * string) :=
  match s with
  | EmptyString => if prev_us then None else Some (acc, n, EmptyString)
  | String c s' =>
      if Ascii.eqb c "_" then
        if prev_us then None else scan_digits true acc n s'
      else
        match digit_value c with
        | Some d => scan_digits false (10 * acc + d) (S n) s'
        | None => if prev_us then None else Some (acc, n, s)
        end
  end.

(** An optional sign in front of the digits. *)
Definition take_sign (s : string) : bool * string :=
  match s with
  | EmptyString => (false, s)
  | String c r =>
      if Ascii.eqb c "-" then (true, r)
      else if Ascii.eqb c "+" then (false, r)
      else (false, s)
  end.

Definition starts_with (c : ascii) (s : string) : bool :=
  match s with
  | EmptyString => false
  | String c' _ => Ascii.eqb c' c
  end.

Definition int (s : string) : result Z :=
  let '(negative, digits) := take_sign (skip_space s) in
  if starts_with "_" digits then Raise (int_error s)
  else
    match scan_digits false 0 0 digits with
    | Some (v, n, rest) =>
        if over_limit n then Raise (int_limit_error n)
        else if Nat.eqb n 0 then Raise (int_error s)
        else if String.eqb (skip_space rest) "" then
          Ok (if negative then - v else v)
        else Raise (int_error s)
    | None => Raise (int_error s)
    end.

End Py.

(** ** The dimension-pair parser *)

(** [_parse_wh], the helper local to [execute]. *)
Definition _parse_wh (s : value) : result (option (Z * Z)) :=
  if negb (Py.truthy s) then Ok None
  else
    match s with
    | VStr s =>
        let s := Py.strip s in
        if negb (Py.truthy (VStr s)) then Ok None
        else
          let parts := map Py.strip (Py.split "," s) in
          if negb (Nat.eqb (length parts) 2) then
            Raise (ValueError ("Invalid width,height string: '" +:+ s +:+ "'"))
          else
            rbind (Py.int (nth 0 parts EmptyString)) (fun w =>
            rbind (Py.int (nth 1 parts EmptyString)) (fun h =>
            Ok (Some (w, h))))
    | other =>
        Raise (AttributeError
                 ("'" +:+ Py.type_name other +:+ "' object has no attribute 'strip'"))
    end.

(** ** The operator *)

(** The keyword arguments of [view.to_frames(...)], in call order. *)
Record to_frames_kwargs : Type := Kwargs {
  sample_frames : bool;
  fps : value;
  max_fps : value;
  size : option (Z * Z);
  min_size : option (Z * Z);
  max_size : option (Z * Z);
  sparse : bool;
  output_dir : value;
  rel_dir : value;
  frames_patt : value;
  force_sample : bool;
  skip_failures : bool;
  verbose : bool
}.

(** [d.get(key, dflt)]. *)
Definition get (d : gmap string value) (key : string) (dflt : value) : value :=
  default dflt (d !! key).

Section Operator.

(** The host's collaborators: the type of views, the type of the
    frames view [to_frames] answers with, the sampling routine itself
    and [len] on its answer.  Both may raise. *)
Variables View FramesView : Type.
Variable to_frames : View -> to_frames_kwargs -> result FramesView.
Variable len : FramesView -> result nat.

(** The execution context handed to [execute]. *)
Record context : Type := Context {
  params : gmap string value;
  view : View
}.

(** One recorded invocation of the sampling routine. *)
Definition call : Type := View * to_frames_kwargs.

(** A computation that may raise and that records, in order, the
    invocations of the sampling routine it makes. *)
Definition run (A : Type) : Type := list call -> result A * list call.

Definition ret {A : Type} (a : A) : run A := fun log => (Ok a, log).

Definition bind {A B : Type} (m : run A) (k : A -> run B) : run B :=
  fun log =>
    match m log with
    | (Ok a, log') => k a log'
    | (Raise e, log') => (Raise e, log')
    end.

Definition lift {A : Type} (r : result A) : run A := fun log => (r, log).

Definition call_to_frames (v : View) (kw : to_frames_kwargs) : run FramesView :=
  fun log => (to_frames v kw, log ++ [(v, kw)]).

Notation "'let*' x ':=' m 'in' k" := (bind m (fun x => k))
  (at level 10, x name, m at level 100, k at level 200).

(** [ToFramesOperator.execute]. *)
Definition execute (ctx : context) : run (gmap string value) :=
  let params := params ctx in
  let* size_val := lift (_parse_wh (get params "size" VNone)) in
  let* min_size_val := lift (_parse_wh (get params "min_size" VNone)) in
  let* max_size_val := lift (_parse_wh (get params "max_size" VNone)) in
  let fps_val := get params "fps" VNone in
  let max_fps_val := get params "max_fps" VNone in
  let output_dir := Py.or_none (get params "output_dir" VNone) in
  let rel_dir := Py.or_none (get params "rel_dir" VNone) in
  let frames_patt := Py.or_none (get params "frames_patt" VNone) in
  let sample_frames := Py.truthy (get params "sample_frames" (VBool false)) in
  let sparse := Py.truthy (get params "sparse" (VBool false)) in
  let force_sample := Py.truthy (get params "force_sample" (VBool false)) in
  let skip_failures := Py.truthy (get params "skip_failures" (VBool true)) in
  let verbose := Py.truthy (get params "verbose" (VBool false)) in
  let* frames_view :=
    call_to_frames (view ctx)
      {| sample_frames := sample_frames;
         fps := match fps_val with VNone => VNone | _ => fps_val end;
         max_fps := match max_fps_val with VNone => VNone | _ => max_fps_val end;
         size := size_val;
         min_size := min_size_val;
         max_size := max_size_val;
         sparse := sparse;
         output_dir := output_dir;
         rel_dir := rel_dir;
         frames_patt := frames_patt;
         force_sample := force_sample;
         skip_failures := skip_failures;
         verbose := verbose |} in
  let* n := lift (len frames_view) in
  ret {[ "num_frames" := VInt (Z.of_nat n) ]}.

End Operator.

Arguments Context {View} params view.
Arguments params {View} c.
Arguments view {View} c.
Arguments execute {View FramesView} to_frames len ctx log.

(** ** The input and output forms *)

(** The method of [types.Object] a field is declared with. *)
Inductive field_kind : Type := KBool | KFloat | KInt | KStr.

(** A declared field: its kind and the keyword arguments of the
    declaration; [default] and [required] are [None] when the
    declaration does not give them. *)
Record property : Type := Property {
  prop_kind : field_kind;
  prop_label : string;
  prop_description : string;
  prop_default : option value;
  prop_required : option bool
}.

(** The [properties] of a [types.Object]: a dictionary from field name
    to property, in insertion order. *)
Definition object : Type := list (string * property).

(** [d[key] = p] on such a dictionary: a known key keeps its place. *)
Fixpoint dict_set (key : string) (p : property) (d : object) : object :=
  match d with
  | [] => [(key, p)]
  | (k, q) :: d' =>
      if String.eqb k key then (key, p) :: d' else (k, q) :: dict_set key p d'
  end.

Fixpoint dict_get (key : string) (d : object) : option property :=
  match d with
  | [] => None
  | (k, q) :: d' => if String.eqb k key then Some q else dict_get key d'
  end.

(** [obj.bool(name, label=, description=, default=)]. *)
Definition obj_bool (name label description : string) (dflt : value) (o : object)
  : object :=
  dict_set name (Property KBool label description (Some dflt) None) o.

(** [obj.float(name, label=, description=, required=)]. *)
Definition obj_float (name label description : string) (required : bool) (o : object)
  : object :=
  dict_set name (Property KFloat label description None (Some required)) o.

(** [obj.str(name, label=, description=, required=)]. *)
Definition obj_str (name label description : string) (required : bool) (o : object)
  : object :=
  dict_set name (Property KStr label description None (Some required)) o.

(** [obj.int(name, label=, description=)]. *)
Definition obj_int (name label description : string) (o : object) : object :=
  dict_set name (Property KInt label description None None) o.

(** [types.Property(obj, view=types.View(label=...))]. *)
Record form : Type := Form {
  form_object : object;
  form_label : string
}.

(** [ToFramesOperator.resolve_input]. *)
Definition resolve_input {View : Type} (ctx : context View) : form :=
  let inputs : object := [] in
  let inputs :=
    obj_bool "sample_frames" "sample_frames"
      "Re-sample video frames (True) or use existing frames (False)?"
      (VBool false) inputs in
  let inputs :=
    obj_bool "sparse" "sparse"
      "Sample only frames whose `Frame` objects already exist in the dataset?"
      (VBool false) inputs in
  let inputs :=
    obj_bool "force_sample" "force_sample"
      "Whether to resample frames that already exist on disk"
      (VBool false) inputs in
  let inputs :=
    obj_bool "skip_failures" "skip_failures"
      "Continue gracefully if a video cannot be sampled?"
      (VBool true) inputs in
  let inputs :=
    obj_bool "verbose" "verbose"
      "Log information about frames that will be sampled?"
      (VBool false) inputs in
  let inputs :=
    obj_float "fps" "fps"
      "Frame rate at which to sample frames (None to skip)" false inputs in
  let inputs :=
    obj_float "max_fps" "max_fps"
      "Maximum frame rate above which frames are downsampled (None to skip)"
      false inputs in
  let inputs :=
    obj_str "size" "size (width, height)"
      "e.g. '640, 480' or '-1, 720'. Leave blank to skip" false inputs in
  let inputs :=
    obj_str "min_size" "min_size (width, height)"
      "e.g. '320, 240' or '-1, 240'. Leave blank to skip" false inputs in
  let inputs :=
    obj_str "max_size" "max_size (width, height)"
      "e.g. '1280, 720' or '-1, 1080'. Leave blank to skip" false inputs in
  let inputs :=
    obj_str "output_dir" "output_dir"
      "Path to directory in which to write frames. (Optional)" false inputs in
  let inputs :=
    obj_str "rel_dir" "rel_dir"
      "Relative directory to remove from video filepaths, if possible"
      false inputs in
  let inputs :=
    obj_str "frames_patt" "frames_patt"
      "Filename pattern (e.g. '%06d.jpg'). Leave blank for default"
      false inputs in
  Form inputs "to_frames parameters".

(** [ToFramesOperator.resolve_output]. *)
Definition resolve_output {View : Type} (ctx : context View) : form :=
  let outputs : object := [] in
  let outputs :=
    obj_int "num_frames" "Number of frames generated"
      "Total frames in the returned FramesView" outputs in
  Form outputs "to_frames summary".

(** The names a form declares, in order. *)
Definition declared (f : form) : list string := map fst (form_object f).

(** A value fits a field of a given kind. *)
Definition fits (k : field_kind) (v : value) : bool :=
  match k, v with
  | KBool, VBool _ => true
  | KFloat, VFloat _ => true
  | KInt, VInt _ => true
  | KStr, VStr _ => true
  | _, _ => false
  end.

(** ** Vocabulary of the specification *)

(** The three dimension fields, in the order [execute] reads them. *)
Definition dimension_fields : list string := ["size"; "min_size"; "max_size"].

Fixpoint string_forall (p : ascii -> bool) (s : string) : bool :=
  match s with
  | EmptyString => true
  | String c s' => p c && string_forall p s'
  end.

(** A string of white space only (the empty string included). *)
Definition blank (s : string) : Prop := string_forall Py.isspace s = true.

Definition is_digit (c : ascii) : bool :=
  ((48 <=? Py.code c) && (Py.code c <=? 57))%N.

(** The number a string of decimal digits denotes, by position. *)
Fixpoint decimal_value (ds : string) : Z :=
  match ds with
  | EmptyString => 0
  | String c ds' =>
      (Z.of_N (Py.code c) - 48) * 10 ^ Z.of_nat (String.length ds') + decimal_value ds'
  end.

(** An integer token: decimal digits, at least one, after an optional
    sign; and the integer it denotes. *)
Inductive int_token : string -> Z -> Prop :=
| token_digits ds :
    ds <> EmptyString -> string_forall is_digit ds = true ->
    int_token ds (decimal_value ds)
| token_plus ds :
    ds <> EmptyString -> string_forall is_digit ds = true ->
    int_token (String "+" ds) (decimal_value ds)
| token_minus ds :
    ds <> EmptyString -> string_forall is_digit ds = true ->
    int_token (String "-" ds) (- decimal_value ds).

(** A token [int()] accepts. *)
Definition int_parseable (t : string) : Prop := exists z, Py.int t = Ok z.

(** The string, white space around it set aside, is two tokens around
    one comma, and [int()] accepts each once trimmed. *)
Definition two_int_tokens (s : string) : Prop :=
  exists a b,
    Py.strip s = a +:+ String "," b /\
    Py.has_char "," a = false /\ Py.has_char "," b = false /\
    int_parseable (Py.strip a) /\ int_parseable (Py.strip b).

(** A malformed dimension string: something is left after trimming, and
    it is not two integer tokens. *)
Definition malformed (s : string) : Prop :=
  Py.strip s <> EmptyString /\ ~ two_int_tokens s.

(** [needle] occurs in [hay]. *)
Fixpoint is_prefix (p s : string) : bool :=
  match p, s with
  | EmptyString, _ => true
  | String a p', String b s' => Ascii.eqb a b && is_prefix p' s'
  | String _ _, EmptyString => false
  end.

Fixpoint occurs (needle hay : string) : bool :=
  is_prefix needle hay ||
  match hay with
  | EmptyString => false
  | String _ hay' => occurs needle hay'
  end.

(** How often a character occurs in a string. *)
Fixpoint count_char (q : ascii) (s : string) : nat :=
  match s with
  | EmptyString => O
  | String c s' => (if Ascii.eqb c q then 1 else 0) + count_char q s'
  end.

(** The body of [_parse_wh] after its two emptiness tests, on the
    trimmed string. *)
Definition parse_trimmed (s : string) : result (option (Z * Z)) :=
  let parts := map Py.strip (Py.split "," s) in
  if negb (Nat.eqb (length parts) 2) then
    Raise (ValueError ("Invalid width,height string: '" +:+ s +:+ "'"))
  else
    rbind (Py.int (nth 0 parts EmptyString)) (fun w =>
    rbind (Py.int (nth 1 parts EmptyString)) (fun h =>
    Ok (Some (w, h)))).

(** The three optional string fields. *)
Definition string_fields : list string := ["output_dir"; "rel_dir"; "frames_patt"].

(** The keyword argument a string field is passed as. *)
Definition string_kwarg (field : string) (kw : to_frames_kwargs) : value :=
  if String.eqb field "output_dir" then output_dir kw
  else if String.eqb field "rel_dir" then rel_dir kw
  else frames_patt kw.

(** A dimension field that is absent or well-formed: missing, [None],
    a blank string, or a string of two integer tokens. *)
Definition dimension_ok (v : option value) : Prop :=
  v = None \/ v = Some VNone \/
  exists s, v = Some (VStr s) /\ (blank s \/ two_int_tokens s).

(** A dimension field that holds a malformed string. *)
Definition dimension_malformed (v : option value) : Prop :=
  exists s, v = Some (VStr s) /\ malformed s.

(** The arguments [execute] resolves from the parameters, given the
    three parsed pairs. *)
Definition resolved_kwargs (p : gmap string value) (sz mn mx : option (Z * Z))
  : to_frames_kwargs :=
  {| sample_frames := Py.truthy (get p "sample_frames" (VBool false));
     fps := get p "fps" VNone;
     max_fps := get p "max_fps" VNone;
     size := sz;
     min_size := mn;
     max_size := mx;
     sparse := Py.truthy (get p "sparse" (VBool false));
     output_dir := Py.or_none (get p "output_dir" VNone);
     rel_dir := Py.or_none (get p "rel_dir" VNone);
     frames_patt := Py.or_none (get p "frames_patt" VNone);
     force_sample := Py.truthy (get p "force_sample" (VBool false));
     skip_failures := Py.truthy (get p "skip_failures" (VBool true));
     verbose := Py.truthy (get p "verbose" (VBool false)) |}.

(** The result dictionary [{"num_frames": n}]. *)
Definition summary (n : nat) : gmap string value :=
  {[ "num_frames" := VInt (Z.of_nat n) ]}.

(** [sep.join(parts)]. *)
Fixpoint join (sep : ascii) (parts : list string) : string :=
  match parts with
  | [] => EmptyString
  | [p] => p
  | p :: rest => p +:+ String sep (join sep rest)
  end.

(** A string that neither starts nor ends in white space: no blank
    string other than the empty one is a prefix or a suffix of it. *)
Definition trimmed (t : string) : Prop :=
  forall w u, blank w ->
    (t = w +:+ u -> w = EmptyString) /\ (t = u +:+ w -> w = EmptyString).

(** The five flags. *)
Definition flag_fields : list string :=
  ["sample_frames"; "sparse"; "force_sample"; "skip_failures"; "verbose"].

(** The keyword argument a flag is passed as. *)
Definition flag_kwarg (field : string) (kw : to_frames_kwargs) : bool :=
  if String.eqb field "sample_frames" then sample_frames kw
  else if String.eqb field "sparse" then sparse kw
  else if String.eqb field "force_sample" then force_sample kw
  else if String.eqb field "skip_failures" then skip_failures kw
  else verbose kw.

(** The keyword arguments of a run that is given none of the
    parameters. *)
Definition default_kwargs : to_frames_kwargs :=
  {| sample_frames := false; fps := VNone; max_fps := VNone;
     size := None; min_size := None; max_size := None;
     sparse := false; output_dir := VNone; rel_dir := VNone; frames_patt := VNone;
     force_sample := false; skip_failures := true; verbose := false |}.

(** The parameters respect a form: each value present is [None] or
    fits the kind its field is declared with. *)
Definition conforms (f : form) (p : gmap string value) : Prop :=
  forall k x, p !! k = Some x ->
    x = VNone \/
    exists pr, dict_get k (form_object f) = Some pr /\ fits (prop_kind pr) x = true.

(** The thirteen parameters of the operator, in the order the input
    form declares them. *)
Definition parameter_names : list string :=
  ["sample_frames"; "sparse"; "force_sample"; "skip_failures"; "verbose";
   "fps"; "max_fps"; "size"; "min_size"; "max_size";
   "output_dir"; "rel_dir"; "frames_patt"].

(** The characters of a dimension string that parses to a pair: digits,
    signs, the underscore, the comma and white space. *)
Definition dimension_char (c : ascii) : bool :=
  is_digit c || Ascii.eqb c "+" || Ascii.eqb c "-" || Ascii.eqb c "_"
  || Ascii.eqb c "," || Py.isspace c.

(** The number of decimal digits in a string. *)
Fixpoint count_digits (s : string) : nat :=
  match s with
  | EmptyString => O
  | String c s' => ((if is_digit c then 1 else 0) + count_digits s')%nat
  end.

(** How [int()] fails on a token: with the message that quotes the
    token, or, on a token of more digits than the limit, with the
    message that gives the limit and a number of digits. *)
Definition int_complaint (t msg : string) : Prop :=
  Py.int t = Raise (ValueError msg) /\
  (msg = Py.int_message t \/
   exists n, (Py.int_max_str_digits < n)%nat /\ (n <= count_digits t)%nat /\
             msg = Py.int_limit_message n).

(** What a dimension field stands for: nothing when it is absent,
    [None] or blank; the pair of two integer tokens, each within the
    digit limit, written around one comma with any white space before
    and after each. *)
Inductive dimension_denotes : option value -> option (Z * Z) -> Prop :=
| denotes_missing : dimension_denotes None None
| denotes_none : dimension_denotes (Some VNone) None
| denotes_blank s : blank s -> dimension_denotes (Some (VStr s)) None
| denotes_pair w0 t1 w1 w2 t2 w3 z1 z2 :
    blank w0 -> blank w1 -> blank w2 -> blank w3 ->
    int_token t1 z1 -> int_token t2 z2 ->
    (count_digits t1 <= Py.int_max_str_digits)%nat ->
    (count_digits t2 <= Py.int_max_str_digits)%nat ->
    dimension_denotes
      (Some (VStr (w0 +:+ (t1 +:+ w1 +:+ String "," (w2 +:+ t2)) +:+ w3)))
      (Some (z1, z2)).

(** A string of [n] copies of a character. *)
Fixpoint repeat_char (c : ascii) (n : nat) : string :=
  match n with
  | O => EmptyString
  | S n' => String c (repeat_char c n')
  end.

(** A token of 4301 digits, one more than the limit. *)
Definition long_token : string := repeat_char "1" 4301.

(** *** Sample collaborators

    A view is the list of its frame numbers; sampling keeps the frames
    of the view it is given, or fails on an unreadable video. *)
Definition keep_frames (v : list nat) (kw : to_frames_kwargs) : result (list nat) :=
  Ok v.

Definition unreadable (v : list nat) (kw : to_frames_kwargs) : result (list nat) :=
  Raise (Exn "OSError" "cannot read video").

Definition count_frames (fv : list nat) : result nat := Ok (length fv).

(** The float 5.0, as its binary64 bit pattern. *)
Definition five_fps : value := VFloat 4617315517961601024.

(** Parameters with a directory, an empty string and two flags. *)
Definition full_params : gmap string value :=
  <[ "size" := VStr " 1280 , 720 " ]>
    (<[ "fps" := five_fps ]>
       (<[ "output_dir" := VStr "/tmp/frames " ]>
          (<[ "rel_dir" := VStr EmptyString ]>
             (<[ "verbose" := VBool true ]>
                (<[ "skip_failures" := VBool false ]> ∅))))).

Definition sample_params : gmap string value :=
  <[ "size" := VStr "1280,720" ]> (<[ "fps" := five_fps ]> (<[ "output_dir" := VStr EmptyString ]> ∅)).

(** ** Checks on concrete inputs *)

Example parse_plain : _parse_wh (VStr "640,480") = Ok (Some (640, 480)).
Proof. vm_compute. reflexivity. Qed.

Example parse_padded : _parse_wh (VStr " -1 , 720 ") = Ok (Some (-1, 720)).
Proof. vm_compute. reflexivity. Qed.

Example parse_one_token :
  _parse_wh (VStr " 640 ") = Raise (ValueError "Invalid width,height string: '640'").
Proof. vm_compute. reflexivity. Qed.

Example parse_three_tokens :
  _parse_wh (VStr "640,480,100") =
  Raise (ValueError "Invalid width,height string: '640,480,100'").
Proof. vm_compute. reflexivity. Qed.

Example parse_number :
  _parse_wh (VInt 640) =
  Raise (AttributeError "'int' object has no attribute 'strip'").
Proof. vm_compute. reflexivity. Qed.

Example parse_letters :
  _parse_wh (VStr "a,b") =
  Raise (ValueError "invalid literal for int() with base 10: 'a'").
Proof. vm_compute. reflexivity. Qed.

Example int_cases :
  Py.int "007" = Ok 7 /\ Py.int "+5" = Ok 5 /\ Py.int "-0" = Ok 0 /\
  Py.int "1_000" = Ok 1000 /\ Py.int "1__0" = Raise (Py.int_error "1__0") /\
  Py.int "_1" = Raise (Py.int_error "_1") /\ Py.int "1_" = Raise (Py.int_error "1_") /\
  Py.int "" = Raise (Py.int_error "") /\ Py.int "- 1" = Raise (Py.int_error "- 1") /\
  Py.int "0x10" = Raise (Py.int_error "0x10") /\ Py.int "1.5" = Raise (Py.int_error "1.5").
Proof. vm_compute. repeat split. Qed.

Example repr_cases :
  Py.repr "a" = "'a'" /\ Py.repr "it's" = String Py.dquote ("it's" +:+ String Py.dquote "") /\
  Py.repr "a\b" = "'a\\b'" /\ Py.repr (String "010" "") = "'\n'" /\
  Py.repr (String "001" "") = "'\x01'" /\ Py.repr (String "255" "") = String "'" (String "255" "'").
Proof. vm_compute. repeat split. Qed.

(** ** Facts about the built-ins *)

Section StringFacts.

Lemma app_cons (c : ascii) (s t : string) :
  String c s +:+ t = String c (s +:+ t).
Proof. reflexivity. Qed.

Lemma app_empty_l (s : string) : EmptyString +:+ s = s.
Proof. reflexivity. Qed.

Lemma app_empty_r (s : string) : s +:+ EmptyString = s.
Proof. induction s as [|c s IH]; [reflexivity|]. rewrite app_cons, IH. reflexivity. Qed.

Lemma app_assoc (s t u : string) : (s +:+ t) +:+ u = s +:+ (t +:+ u).
Proof.
  induction s as [|c s IH]; [reflexivity|].
  rewrite !app_cons, IH. reflexivity.
Qed.

Lemma app_not_empty_r (s t : string) : t <> EmptyString -> s +:+ t <> EmptyString.
Proof. destruct s; [rewrite app_empty_l; auto | rewrite app_cons; discriminate]. Qed.

Lemma string_forall_app (p : ascii -> bool) (s t : string) :
  string_forall p (s +:+ t) = string_forall p s && string_forall p t.
Proof.
  induction s as [|c s IH]; [reflexivity|].
  rewrite ?app_cons; simpl. rewrite IH. apply andb_assoc.
Qed.

Lemma string_forall_impl (p q : ascii -> bool) (s : string) :
  (forall c, p c = true -> q c = true) ->
  string_forall p s = true -> string_forall q s = true.
Proof.
  intros Hpq. induction s as [|c s IH]; simpl; [reflexivity|].
  intros [Hc Hs]%andb_prop. rewrite (Hpq _ Hc), (IH Hs). reflexivity.
Qed.

Lemma has_char_app (q : ascii) (s t : string) :
  Py.has_char q (s +:+ t) = Py.has_char q s || Py.has_char q t.
Proof.
  induction s as [|c s IH]; [reflexivity|].
  rewrite ?app_cons; simpl. rewrite IH. apply orb_assoc.
Qed.

(** *** [strip] *)

Lemma lstrip_blank_app (w s : string) :
  blank w -> Py.lstrip (w +:+ s) = Py.lstrip s.
Proof.
  unfold blank. induction w as [|c w IH]; [reflexivity|].
  simpl. intros [Hc Hw]%andb_prop. rewrite ?app_cons; simpl. rewrite Hc. auto.
Qed.

Lemma lstrip_blank (w : string) : blank w -> Py.lstrip w = EmptyString.
Proof.
  intros Hw. rewrite <- (app_empty_r w). rewrite lstrip_blank_app by exact Hw.
  reflexivity.
Qed.

Lemma rstrip_blank (w : string) : blank w -> Py.rstrip w = EmptyString.
Proof.
  unfold blank. induction w as [|c w IH]; [reflexivity|].
  simpl. intros [Hc Hw]%andb_prop. rewrite (IH Hw), Hc. reflexivity.
Qed.

Lemma rstrip_app_blank (s w : string) :
  blank w -> Py.rstrip (s +:+ w) = Py.rstrip s.
Proof.
  intros Hw. induction s as [|c s IH].
  - rewrite app_empty_l. apply rstrip_blank, Hw.
  - rewrite ?app_cons; simpl. rewrite IH. reflexivity.
Qed.

Lemma rstrip_app_solid (a s : string) :
  Py.rstrip s <> EmptyString -> Py.rstrip (a +:+ s) = a +:+ Py.rstrip s.
Proof.
  intros Hs. induction a as [|c a IH]; [reflexivity|].
  rewrite !app_cons. simpl. rewrite IH.
  destruct (a +:+ Py.rstrip s) eqn:E; [|reflexivity].
  exfalso. revert E. apply app_not_empty_r, Hs.
Qed.

Lemma rstrip_no_space (s : string) :
  string_forall (fun c => negb (Py.isspace c)) s = true -> Py.rstrip s = s.
Proof.
  induction s as [|c s IH]; [reflexivity|].
  simpl. intros [Hc Hs]%andb_prop. rewrite (IH Hs).
  apply negb_true_iff in Hc. rewrite Hc. destruct s; reflexivity.
Qed.

Lemma lstrip_solid (c : ascii) (s : string) :
  Py.isspace c = false -> Py.lstrip (String c s) = String c s.
Proof. intros Hc. simpl. rewrite Hc. reflexivity. Qed.

(** *** [split] *)

Lemma split_no_sep (sep : ascii) (s : string) :
  Py.has_char sep s = false -> Py.split sep s = [s].
Proof.
  induction s as [|c s IH]; [reflexivity|].
  simpl. intros [Hc Hs]%orb_false_elim. rewrite Hc, (IH Hs). reflexivity.
Qed.

Lemma split_at_sep (sep : ascii) (a b : string) :
  Py.has_char sep a = false ->
  Py.split sep (a +:+ String sep b) = a :: Py.split sep b.
Proof.
  induction a as [|c a IH].
  - intros _. rewrite app_empty_l. simpl. rewrite Ascii.eqb_refl. reflexivity.
  - simpl. intros [Hc Ha]%orb_false_elim. rewrite ?app_cons; simpl.
    rewrite Hc, (IH Ha). reflexivity.
Qed.

(** [split] answers with one part more than there are separators. *)
Lemma split_length (sep : ascii) (s : string) :
  length (Py.split sep s) = S (count_char sep s).
Proof.
  induction s as [|c s IH]; [reflexivity|].
  simpl. destruct (Ascii.eqb c sep); simpl.
  - rewrite IH. reflexivity.
  - destruct (Py.split sep s); simpl in *; congruence.
Qed.

End StringFacts.

Section IntFacts.

Local Ltac by_char c H :=
  destruct c as [[] [] [] [] [] [] [] []]; vm_compute in H; try discriminate H;
  vm_compute; repeat split.

(** What the parser needs to know of a decimal digit. *)
Lemma digit_facts (c : ascii) :
  is_digit c = true ->
  Py.isspace c = false /\ Py.int_space c = false /\
  Ascii.eqb c "_" = false /\ Ascii.eqb c "," = false /\
  Ascii.eqb c "-" = false /\ Ascii.eqb c "+" = false.
Proof. intros H. by_char c H. Qed.

Lemma digit_value_digit (c : ascii) :
  is_digit c = true -> Py.digit_value c = Some (Z.of_N (Py.code c) - 48).
Proof. unfold Py.digit_value, is_digit. intros ->. reflexivity. Qed.

Lemma digits_no_space (ds : string) :
  string_forall is_digit ds = true ->
  string_forall (fun c => negb (Py.isspace c)) ds = true.
Proof.
  apply string_forall_impl. intros c Hc.
  destruct (digit_facts c Hc) as [-> _]. reflexivity.
Qed.

Lemma digits_no_comma (ds : string) :
  string_forall is_digit ds = true -> Py.has_char "," ds = false.
Proof.
  induction ds as [|c ds IH]; [reflexivity|].
  simpl. intros [Hc Hds]%andb_prop.
  destruct (digit_facts c Hc) as (_ & _ & _ & -> & _). simpl. auto.
Qed.

Lemma blank_no_comma (w : string) : blank w -> Py.has_char "," w = false.
Proof.
  unfold blank. induction w as [|c w IH]; [reflexivity|].
  simpl. intros [Hc Hw]%andb_prop. rewrite (IH Hw), orb_false_r.
  destruct c as [[] [] [] [] [] [] [] []]; vm_compute in Hc; try discriminate Hc;
    reflexivity.
Qed.

(** The digit loop reads a string of digits to its end and computes
    the number the digits denote. *)
Lemma scan_digits_all (ds : string) (acc : Z) (n : nat) :
  string_forall is_digit ds = true ->
  Py.scan_digits false acc n ds =
  Some (acc * 10 ^ Z.of_nat (String.length ds) + decimal_value ds,
        (n + String.length ds)%nat, EmptyString).
Proof.
  revert acc n. induction ds as [|c ds IH]; intros acc n.
  - intros _. simpl. do 3 f_equal; lia.
  - simpl. intros [Hc Hds]%andb_prop.
    destruct (digit_facts c Hc) as (_ & _ & -> & _).
    rewrite (digit_value_digit c Hc), (IH _ _ Hds).
    simpl String.length. rewrite Nat2Z.inj_succ, Z.pow_succ_r by lia.
    do 3 f_equal; [ring | lia].
Qed.

(** The limit bites exactly above [int_max_str_digits] digits. *)
Lemma over_limit_spec (n : nat) :
  Py.over_limit n = true <-> (Py.int_max_str_digits < n)%nat.
Proof.
  unfold Py.over_limit. rewrite !andb_true_iff, !Nat.ltb_lt.
  unfold Py.int_str_digits_threshold, Py.int_max_str_digits. lia.
Qed.

Lemma over_limit_false (n : nat) :
  (n <= Py.int_max_str_digits)%nat -> Py.over_limit n = false.
Proof.
  intros Hn. destruct (Py.over_limit n) eqn:E; [|reflexivity].
  apply over_limit_spec in E. lia.
Qed.

Lemma count_digits_all (ds : string) :
  string_forall is_digit ds = true -> count_digits ds = String.length ds.
Proof.
  induction ds as [|c ds IH]; [reflexivity|].
  simpl. intros [-> Hds]%andb_prop. rewrite (IH Hds). reflexivity.
Qed.

Lemma count_digits_app (s t : string) :
  count_digits (s +:+ t) = (count_digits s + count_digits t)%nat.
Proof.
  induction s as [|c s IH]; [reflexivity|].
  rewrite app_cons. simpl. rewrite IH. lia.
Qed.

Lemma int_of_digits (negative : bool) (orig ds : string) :
  ds <> EmptyString -> string_forall is_digit ds = true ->
  (count_digits ds <= Py.int_max_str_digits)%nat ->
  (if Py.starts_with "_" ds then Raise (Py.int_error orig)
   else
     match Py.scan_digits false 0 0 ds with
     | Some (v, n, rest) =>
         if Py.over_limit n then Raise (Py.int_limit_error n)
         else if Nat.eqb n 0 then Raise (Py.int_error orig)
         else if String.eqb (Py.skip_space rest) "" then
           Ok (if negative then - v else v)
         else Raise (Py.int_error orig)
     | None => Raise (Py.int_error orig)
     end) = Ok (if negative then - decimal_value ds else decimal_value ds).
Proof.
  intros Hne Hds Hlen. rewrite (scan_digits_all ds 0 0 Hds).
  rewrite (count_digits_all ds Hds) in Hlen.
  change (0 + String.length ds)%nat with (String.length ds).
  rewrite (over_limit_false _ Hlen).
  destruct ds as [|c ds]; [congruence|].
  simpl in Hds. apply andb_prop in Hds as [Hc _].
  destruct (digit_facts c Hc) as (_ & _ & Hus & _).
  unfold Py.starts_with. rewrite Hus. simpl Nat.eqb. cbv iota.
  simpl Py.skip_space. simpl String.eqb. cbv iota.
  rewrite Z.mul_0_l, Z.add_0_l. reflexivity.
Qed.

(** [int()] reads an integer token within the digit limit as the
    integer it denotes. *)
Lemma int_of_token (t : string) (z : Z) :
  int_token t z -> (count_digits t <= Py.int_max_str_digits)%nat ->
  Py.int t = Ok z.
Proof.
  intros [ds Hne Hds | ds Hne Hds | ds Hne Hds] Hlen; unfold Py.int.
  - destruct ds as [|c ds]; [congruence|].
    pose proof Hds as Hds'. simpl in Hds'. apply andb_prop in Hds' as [Hc _].
    destruct (digit_facts c Hc) as (_ & Hsp & _ & _ & Hm & Hp).
    simpl Py.skip_space. rewrite Hsp. unfold Py.take_sign. rewrite Hm, Hp.
    apply (int_of_digits false _ (String c ds) Hne Hds Hlen).
  - simpl Py.skip_space. change (Py.int_space "+") with false. cbv iota.
    unfold Py.take_sign.
    change (Ascii.eqb "+" "-") with false. change (Ascii.eqb "+" "+") with true.
    cbv iota. change (count_digits (String "+" ds)) with (count_digits ds) in Hlen.
    apply (int_of_digits false _ ds Hne Hds Hlen).
  - simpl Py.skip_space. change (Py.int_space "-") with false. cbv iota.
    unfold Py.take_sign. change (Ascii.eqb "-" "-") with true. cbv iota.
    change (count_digits (String "-" ds)) with (count_digits ds) in Hlen.
    apply (int_of_digits true _ ds Hne Hds Hlen).
Qed.

(** A token neither starts nor ends in white space, and holds no comma. *)
Lemma token_shape (t : string) (z : Z) :
  int_token t z ->
  (forall s, Py.lstrip (t +:+ s) = t +:+ s) /\ Py.rstrip t = t /\
  t <> EmptyString /\ Py.has_char "," t = false.
Proof.
  assert (Hdigits : forall ds, ds <> EmptyString ->
            string_forall is_digit ds = true ->
            (forall s, Py.lstrip (ds +:+ s) = ds +:+ s) /\
            Py.rstrip ds = ds /\ Py.has_char "," ds = false).
  { intros ds Hne Hds. split; [|split].
    - destruct ds as [|c ds]; [congruence|].
      simpl in Hds. apply andb_prop in Hds as [Hc _].
      destruct (digit_facts c Hc) as (Hsp & _).
      intros s. rewrite app_cons. apply lstrip_solid, Hsp.
    - apply rstrip_no_space, digits_no_space, Hds.
    - apply digits_no_comma, Hds. }
  intros [ds Hne Hds | ds Hne Hds | ds Hne Hds];
    destruct (Hdigits ds Hne Hds) as (Hl & Hr & Hc).
  - auto.
  - split; [|split; [|split]]; [| |discriminate|].
    + intros s. rewrite app_cons. apply lstrip_solid. reflexivity.
    + simpl. rewrite Hr. destruct ds; [congruence|reflexivity].
    + simpl. exact Hc.
  - split; [|split; [|split]]; [| |discriminate|].
    + intros s. rewrite app_cons. apply lstrip_solid. reflexivity.
    + simpl. rewrite Hr. destruct ds; [congruence|reflexivity].
    + simpl. exact Hc.
Qed.

End IntFacts.

(** ** The dimension-pair parser: what it answers *)

Section ParserFacts.

Lemma strip_empty : Py.strip EmptyString = EmptyString.
Proof. reflexivity. Qed.

Lemma strip_blank (w : string) : blank w -> Py.strip w = EmptyString.
Proof. intros Hw. unfold Py.strip. rewrite (lstrip_blank w Hw). reflexivity. Qed.

(** Trimming takes the padding off a core that neither starts nor
    ends in white space. *)
Lemma strip_padded (w0 core w3 : string) :
  blank w0 -> blank w3 ->
  (forall s, Py.lstrip (core +:+ s) = core +:+ s) -> Py.rstrip core = core ->
  Py.strip (w0 +:+ core +:+ w3) = core.
Proof.
  intros H0 H3 Hl Hr. unfold Py.strip.
  rewrite (lstrip_blank_app w0 _ H0), Hl, (rstrip_app_blank core w3 H3).
  exact Hr.
Qed.

Lemma parse_wh_str (s : string) :
  _parse_wh (VStr s) =
  if String.eqb (Py.strip s) "" then Ok None else parse_trimmed (Py.strip s).
Proof.
  unfold _parse_wh, parse_trimmed. simpl Py.truthy.
  destruct (String.eqb s "") eqn:Es.
  - apply String.eqb_eq in Es. subst s. reflexivity.
  - simpl negb. cbv iota. destruct (String.eqb (Py.strip s) ""); reflexivity.
Qed.

Lemma parse_wh_nonblank (s : string) :
  Py.strip s <> EmptyString -> _parse_wh (VStr s) = parse_trimmed (Py.strip s).
Proof.
  intros Hs. rewrite parse_wh_str.
  apply String.eqb_neq in Hs. rewrite Hs. reflexivity.
Qed.

(** The parts of a trimmed string with exactly one comma. *)
Lemma parts_of_pair (a b : string) :
  Py.has_char "," a = false -> Py.has_char "," b = false ->
  map Py.strip (Py.split "," (a +:+ String "," b)) = [Py.strip a; Py.strip b].
Proof.
  intros Ha Hb. rewrite (split_at_sep _ a b Ha), (split_no_sep _ b Hb).
  reflexivity.
Qed.

End ParserFacts.

(** The trimmed parts of a padded pair of tokens are the tokens. *)
Lemma parts_of_padded_tokens (w0 t1 w1 w2 t2 w3 : string) (z1 z2 : Z) :
  blank w0 -> blank w1 -> blank w2 -> blank w3 ->
  int_token t1 z1 -> int_token t2 z2 ->
  Py.strip (w0 +:+ (t1 +:+ w1 +:+ String "," (w2 +:+ t2)) +:+ w3) <> EmptyString /\
  map Py.strip
    (Py.split "," (Py.strip (w0 +:+ (t1 +:+ w1 +:+ String "," (w2 +:+ t2)) +:+ w3)))
  = [t1; t2].
Proof.
  intros H0 H1 H2 H3 T1 T2.
  destruct (token_shape t1 z1 T1) as (L1 & R1 & N1 & C1).
  destruct (token_shape t2 z2 T2) as (L2 & R2 & N2 & C2).
  assert (Hcore : Py.strip (w0 +:+ (t1 +:+ w1 +:+ String "," (w2 +:+ t2)) +:+ w3)
                  = (t1 +:+ w1) +:+ String "," (w2 +:+ t2)).
  { rewrite (app_assoc t1 w1). apply strip_padded; auto.
    - intros s. rewrite (app_assoc t1). apply L1.
    - change (String "," (w2 +:+ t2)) with (String "," w2 +:+ t2).
      rewrite <- (app_assoc w1), <- (app_assoc t1).
      rewrite rstrip_app_solid; rewrite R2; auto. }
  rewrite Hcore. split; [apply app_not_empty_r; discriminate|].
  rewrite parts_of_pair.
  - f_equal; [|f_equal].
    + rewrite <- (app_empty_l (t1 +:+ w1)). apply strip_padded; auto. reflexivity.
    + rewrite <- (app_empty_r t2) at 1. apply strip_padded; auto. reflexivity.
  - rewrite has_char_app, C1, (blank_no_comma w1 H1). reflexivity.
  - rewrite has_char_app, C2, (blank_no_comma w2 H2). reflexivity.
Qed.

Lemma long_token_is_token : int_token long_token (decimal_value long_token).
Proof.
  apply token_digits.
  - change long_token with (String "1" (repeat_char "1" 4300)). discriminate.
  - vm_compute. reflexivity.
Qed.

(** C3, as the specification words it, fails: a token of 4301 digits is
    an integer token, yet the parser does not answer with a pair on it;
    [int()] raises at its limit of 4300 digits. *)
Lemma parse_wh_long_token_raises :
  int_token long_token (decimal_value long_token) /\ int_token "1" 1 /\
  count_digits long_token = 4301%nat /\
  _parse_wh (VStr (long_token +:+ String "," "1")) =
    Raise (ValueError "Exceeds the limit (4300 digits) for integer string conversion: value has 4301 digits; use sys.set_int_max_str_digits() to increase the limit").
Proof.
  split; [exact long_token_is_token|]. split.
  - apply (token_digits "1"); [discriminate | reflexivity].
  - split; vm_compute; reflexivity.
Qed.

(** C3, amended.  A well-formed dimension string, two integer tokens
    around one comma with any white space before and after each token,
    parses to the pair of integers the tokens denote, when neither
    token has more than 4300 digits, the limit of [int()]: the white
    space around the string and around each token is ignored, and a
    leading minus sign gives a negative integer. *)
Theorem parse_wh_well_formed (w0 t1 w1 w2 t2 w3 : string) (z1 z2 : Z) :
  blank w0 -> blank w1 -> blank w2 -> blank w3 ->
  int_token t1 z1 -> int_token t2 z2 ->
  (count_digits t1 <= Py.int_max_str_digits)%nat ->
  (count_digits t2 <= Py.int_max_str_digits)%nat ->
  _parse_wh (VStr (w0 +:+ (t1 +:+ w1 +:+ String "," (w2 +:+ t2)) +:+ w3))
  = Ok (Some (z1, z2)).
Proof.
  intros H0 H1 H2 H3 T1 T2 B1 B2.
  destruct (parts_of_padded_tokens w0 t1 w1 w2 t2 w3 z1 z2 H0 H1 H2 H3 T1 T2)
    as [Hne Hparts].
  rewrite (parse_wh_nonblank _ Hne). unfold parse_trimmed. rewrite Hparts.
  simpl. rewrite (int_of_token t1 z1 T1 B1). simpl.
  rewrite (int_of_token t2 z2 T2 B2). reflexivity.
Qed.

Lemma parse_wh_well_formed_witness :
  blank " " /\ int_token "-1" (-1) /\ int_token "720" 720 /\
  (count_digits "-1" <= Py.int_max_str_digits)%nat /\
  (count_digits "720" <= Py.int_max_str_digits)%nat /\
  _parse_wh (VStr " -1 , 720 ") = Ok (Some (-1, 720)).
Proof.
  assert (Hb : blank " ") by reflexivity.
  assert (T1 : int_token "-1" (-1)).
  { apply (token_minus "1"); [discriminate | reflexivity]. }
  assert (T2 : int_token "720" 720).
  { apply (token_digits "720"); [discriminate | reflexivity]. }
  assert (B1 : (count_digits "-1" <= Py.int_max_str_digits)%nat)
    by (apply Nat.leb_le; reflexivity).
  assert (B2 : (count_digits "720" <= Py.int_max_str_digits)%nat)
    by (apply Nat.leb_le; reflexivity).
  split; [exact Hb|]. split; [exact T1|]. split; [exact T2|].
  split; [exact B1|]. split; [exact B2|].
  exact (parse_wh_well_formed " " "-1" " " " " "720" " " (-1) 720
           Hb Hb Hb Hb T1 T2 B1 B2).
Defined.

(** C8.  A dimension field that is missing from the parameters, or
    present as [None] or as the empty string, parses to no value: the
    parser answers [None] and raises nothing. *)
Theorem parse_wh_missing_or_empty (params : gmap string value) (field : string) :
  In field dimension_fields ->
  params !! field = None \/ params !! field = Some VNone \/
  params !! field = Some (VStr EmptyString) ->
  _parse_wh (get params field VNone) = Ok None.
Proof.
  intros _ [H | [H | H]]; unfold get; rewrite H; reflexivity.
Qed.

Lemma parse_wh_missing_or_empty_witness :
  In "min_size" dimension_fields /\
  _parse_wh (get (<[ "size" := VStr EmptyString ]> ∅) "min_size" VNone) = Ok None /\
  _parse_wh (get (<[ "size" := VStr EmptyString ]> ∅) "size" VNone) = Ok None.
Proof.
  split; [right; left; reflexivity|]. split.
  - apply parse_wh_missing_or_empty; [right; left; reflexivity|].
    left. reflexivity.
  - apply parse_wh_missing_or_empty; [left; reflexivity|].
    right. right. reflexivity.
Defined.

(** C10.  A dimension string of white space only parses like an empty
    or missing one: the parser answers [None] and raises nothing. *)
Theorem parse_wh_blank (s : string) :
  blank s -> _parse_wh (VStr s) = Ok None.
Proof.
  intros Hs. rewrite parse_wh_str, (strip_blank s Hs). reflexivity.
Qed.

Lemma parse_wh_blank_witness :
  blank "   " /\ _parse_wh (VStr "   ") = Ok None.
Proof.
  split; [reflexivity|]. apply parse_wh_blank. reflexivity.
Defined.

Section MalformedFacts.

Lemma skip_space_digits (s : string) :
  (count_digits (Py.skip_space s) <= count_digits s)%nat.
Proof.
  induction s as [|c s IH]; simpl; [lia|].
  destruct (Py.int_space c); simpl; lia.
Qed.

Lemma take_sign_digits (s : string) :
  (count_digits (snd (Py.take_sign s)) <= count_digits s)%nat.
Proof.
  destruct s as [|c r]; simpl; [lia|].
  destruct (Ascii.eqb c "-"); [simpl; lia|].
  destruct (Ascii.eqb c "+"); simpl; lia.
Qed.

(** The digit loop counts no more digits than the string holds. *)
Lemma scan_digits_count (s : string) :
  forall prev_us acc n v m rest,
    Py.scan_digits prev_us acc n s = Some (v, m, rest) ->
    (m <= n + count_digits s)%nat.
Proof.
  induction s as [|c s IH]; intros prev_us acc n v m rest; simpl.
  - destruct prev_us; [discriminate|]. intros [= _ <- _]. lia.
  - destruct (Ascii.eqb c "_").
    + destruct prev_us; [discriminate|]. intros H. apply IH in H.
      destruct (is_digit c); lia.
    + unfold Py.digit_value. cbv zeta. unfold is_digit.
      destruct ((48 <=? Py.code c)%N && (Py.code c <=? 57)%N).
      * intros H. apply IH in H. lia.
      * destruct prev_us; [discriminate|]. intros [= _ <- _]. lia.
Qed.

(** [int()] answers with an integer or raises one of its two errors. *)
Lemma int_outcome (t : string) :
  int_parseable t \/ (~ int_parseable t /\ exists msg, int_complaint t msg).
Proof.
  assert (Hr : forall r : result Z,
             r = Py.int t ->
             (exists z, r = Ok z) \/ r = Raise (Py.int_error t) \/
             exists n, (Py.int_max_str_digits < n)%nat /\
                       (n <= count_digits t)%nat /\
                       r = Raise (Py.int_limit_error n)).
  { intros r ->. unfold Py.int.
    pose proof (skip_space_digits t) as Hskip.
    pose proof (take_sign_digits (Py.skip_space t)) as Hsign.
    destruct (Py.take_sign (Py.skip_space t)) as [negative digits]. simpl in Hsign.
    destruct (Py.starts_with "_" digits); [right; left; reflexivity|].
    destruct (Py.scan_digits false 0 0 digits) as [[[v n] rest]|] eqn:Escan;
      [|right; left; reflexivity].
    apply scan_digits_count in Escan.
    destruct (Py.over_limit n) eqn:Eover.
    { right. right. exists n. apply over_limit_spec in Eover.
      split; [exact Eover|]. split; [lia | reflexivity]. }
    destruct (Nat.eqb n 0); [right; left; reflexivity|].
    destruct (String.eqb (Py.skip_space rest) "");
      [left; eauto | right; left; reflexivity]. }
  destruct (Hr _ eq_refl) as [[z Hz] | [He | (n & Hn & Hc & He)]].
  - left. exists z. exact Hz.
  - right. split; [intros [z Hz]; congruence|].
    exists (Py.int_message t). split; [exact He | left; reflexivity].
  - right. split; [intros [z Hz]; congruence|].
    exists (Py.int_limit_message n). split; [exact He|]. right. exists n. auto.
Qed.

(** A string with exactly one comma falls into the two parts around it. *)
Lemma one_comma (t : string) :
  count_char "," t = 1%nat ->
  exists a b, t = a +:+ String "," b /\
              Py.has_char "," a = false /\ Py.has_char "," b = false.
Proof.
  assert (Hzero : forall u, count_char "," u = 0%nat -> Py.has_char "," u = false).
  { induction u as [|c u IH]; [reflexivity|]. simpl.
    destruct (Ascii.eqb c ","); [discriminate|]. simpl. exact IH. }
  induction t as [|c t IH]; [discriminate|]. simpl.
  destruct (Ascii.eqb c ",") eqn:Ec.
  - intros Hc. apply Ascii.eqb_eq in Ec. subst c.
    exists EmptyString, t. repeat split. apply Hzero. lia.
  - intros Hc. destruct (IH Hc) as (a & b & -> & Ha & Hb).
    exists (String c a), b. repeat split; [|exact Hb].
    simpl. rewrite Ec, Ha. reflexivity.
Qed.

Lemma count_char_pair (a b : string) :
  Py.has_char "," a = false -> Py.has_char "," b = false ->
  count_char "," (a +:+ String "," b) = 1%nat.
Proof.
  intros Ha Hb.
  pose proof (split_length "," (a +:+ String "," b)) as Hlen.
  rewrite (split_at_sep _ a b Ha), (split_no_sep _ b Hb) in Hlen.
  simpl in Hlen. lia.
Qed.

Lemma is_prefix_app (t q : string) : is_prefix t (t +:+ q) = true.
Proof.
  induction t as [|c t IH]; [reflexivity|].
  rewrite app_cons. simpl. rewrite Ascii.eqb_refl. exact IH.
Qed.

Lemma occurs_inside (p t q : string) : occurs t (p +:+ t +:+ q) = true.
Proof.
  induction p as [|c p IH].
  - rewrite app_empty_l. pose proof (is_prefix_app t q) as Hp.
    destruct (t +:+ q); simpl; rewrite Hp; reflexivity.
  - rewrite app_cons. simpl. rewrite IH. apply orb_true_r.
Qed.

(** What the parser does with a malformed string, case by case: the
    operator's own error when the comma count is not one, otherwise
    the error [int()] raises on the first part it cannot read. *)
Lemma malformed_outcome (s : string) :
  malformed s ->
  (count_char "," (Py.strip s) <> 1%nat /\
   _parse_wh (VStr s) =
   Raise (ValueError ("Invalid width,height string: '" +:+ Py.strip s +:+ "'")))
  \/
  (exists a b,
      Py.strip s = a +:+ String "," b /\
      Py.has_char "," a = false /\ Py.has_char "," b = false /\
      ((~ int_parseable (Py.strip a) /\
        exists msg, int_complaint (Py.strip a) msg /\
                    _parse_wh (VStr s) = Raise (ValueError msg))
       \/
       (int_parseable (Py.strip a) /\ ~ int_parseable (Py.strip b) /\
        exists msg, int_complaint (Py.strip b) msg /\
                    _parse_wh (VStr s) = Raise (ValueError msg)))).
Proof.
  intros [Hne Hnot]. rewrite (parse_wh_nonblank s Hne).
  destruct (Nat.eq_dec (count_char "," (Py.strip s)) 1%nat) as [Hone | Hcount].
  - right. destruct (one_comma _ Hone) as (a & b & Hab & Ha & Hb).
    exists a, b. split; [exact Hab|]. split; [exact Ha|]. split; [exact Hb|].
    rewrite Hab. unfold parse_trimmed. rewrite (parts_of_pair a b Ha Hb). simpl.
    destruct (int_outcome (Py.strip a)) as [[z1 Hz1] | [Hn1 (m1 & Hm1)]].
    + destruct (int_outcome (Py.strip b)) as [[z2 Hz2] | [Hn2 (m2 & Hm2)]].
      * exfalso. apply Hnot. exists a, b. unfold int_parseable. eauto 10.
      * right. split; [exists z1; exact Hz1|]. split; [exact Hn2|].
        exists m2. split; [exact Hm2|]. destruct Hm2 as [He2 _].
        rewrite Hz1. simpl. rewrite He2. reflexivity.
    + left. split; [exact Hn1|]. exists m1. split; [exact Hm1|].
      destruct Hm1 as [He1 _]. rewrite He1. reflexivity.
  - left. split; [exact Hcount|]. unfold parse_trimmed.
    rewrite length_map, split_length.
    destruct (Nat.eqb (S (count_char "," (Py.strip s))) 2) eqn:E.
    + apply Nat.eqb_eq in E. lia.
    + reflexivity.
Qed.

(** In every case the error is a [ValueError]. *)
Lemma malformed_raises (s : string) :
  malformed s -> exists msg, _parse_wh (VStr s) = Raise (ValueError msg).
Proof.
  intros H. destruct (malformed_outcome s H)
    as [[_ ->] | (a & b & _ & _ & _ & [[_ (m & _ & ->)] | (_ & _ & m & _ & ->)])];
    eauto.
Qed.

Lemma malformed_letters : malformed "a,b".
Proof.
  split; [discriminate|].
  intros (a & b & Hab & Ha & Hb & [z1 H1] & _).
  pose proof (parts_of_pair a b Ha Hb) as Hparts.
  rewrite <- Hab in Hparts.
  change (map Py.strip (Py.split "," (Py.strip "a,b"))) with ["a"; "b"] in Hparts.
  injection Hparts as Hsa Hsb. rewrite <- Hsa in H1. discriminate H1.
Qed.

End MalformedFacts.

(** C2, as the specification words it, fails: on the malformed string
    "a,b" the parser raises the error of [int()], whose message quotes
    the token 'a' and not the string that was given. *)
Lemma parse_wh_malformed_message_omits_input :
  malformed "a,b" /\
  _parse_wh (VStr "a,b") =
    Raise (ValueError "invalid literal for int() with base 10: 'a'") /\
  occurs "a,b" "invalid literal for int() with base 10: 'a'" = false.
Proof.
  split; [exact malformed_letters|]. split; reflexivity.
Qed.

(** C2, amended.  On every malformed dimension string the parser raises
    a [ValueError].  When the trimmed string does not hold exactly one
    comma, the message is the operator's own and holds the trimmed
    string; otherwise the error is the one [int()] raises on the first
    of the two trimmed tokens it cannot read, and the message either
    quotes that token only or, for a token of more than 4300 digits,
    gives the digit limit and a digit count and quotes nothing. *)
Theorem parse_wh_malformed (s : string) :
  malformed s ->
  exists msg,
    _parse_wh (VStr s) = Raise (ValueError msg) /\
    ((count_char "," (Py.strip s) <> 1%nat /\
      msg = "Invalid width,height string: '" +:+ Py.strip s +:+ "'" /\
      occurs (Py.strip s) msg = true)
     \/
     (exists a b,
         Py.strip s = a +:+ String "," b /\
         Py.has_char "," a = false /\ Py.has_char "," b = false /\
         ((~ int_parseable (Py.strip a) /\ int_complaint (Py.strip a) msg)
          \/
          (int_parseable (Py.strip a) /\ ~ int_parseable (Py.strip b) /\
           int_complaint (Py.strip b) msg)))).
Proof.
  intros H. destruct (malformed_outcome s H)
    as [[Hc He] | (a & b & Hab & Ha & Hb &
                   [[Hn (m & Hm & He)] | (Hp & Hn & m & Hm & He)])].
  - eexists. split; [exact He|]. left. split; [exact Hc|]. split; [reflexivity|].
    apply occurs_inside.
  - exists m. split; [exact He|]. right. exists a, b. tauto.
  - exists m. split; [exact He|]. right. exists a, b. tauto.
Qed.

Lemma parse_wh_malformed_witness :
  malformed "a,b" /\
  exists msg,
    _parse_wh (VStr "a,b") = Raise (ValueError msg) /\
    ((count_char "," (Py.strip "a,b") <> 1%nat /\
      msg = "Invalid width,height string: '" +:+ Py.strip "a,b" +:+ "'" /\
      occurs (Py.strip "a,b") msg = true)
     \/
     (exists a b,
         Py.strip "a,b" = a +:+ String "," b /\
         Py.has_char "," a = false /\ Py.has_char "," b = false /\
         ((~ int_parseable (Py.strip a) /\ int_complaint (Py.strip a) msg)
          \/
          (int_parseable (Py.strip a) /\ ~ int_parseable (Py.strip b) /\
           int_complaint (Py.strip b) msg)))).
Proof.
  split; [exact malformed_letters|].
  exact (parse_wh_malformed "a,b" malformed_letters).
Defined.

(** ** The operator: what a run does *)

Section OperatorFacts.

Context {View FramesView : Type}.
Variable to_frames : View -> to_frames_kwargs -> result FramesView.
Variable len : FramesView -> result nat.

Lemma pass_through (v : value) : match v with VNone => VNone | _ => v end = v.
Proof. destruct v; reflexivity. Qed.

(** A run, spelled out: the three parses in order, then one call with
    the resolved arguments, then [len] of the answer. *)
Lemma execute_unfold (ctx : context View) (log : list (call View)) :
  execute to_frames len ctx log =
  match _parse_wh (get (params ctx) "size" VNone) with
  | Raise e => (Raise e, log)
  | Ok sz =>
      match _parse_wh (get (params ctx) "min_size" VNone) with
      | Raise e => (Raise e, log)
      | Ok mn =>
          match _parse_wh (get (params ctx) "max_size" VNone) with
          | Raise e => (Raise e, log)
          | Ok mx =>
              let kw := resolved_kwargs (params ctx) sz mn mx in
              (rbind (to_frames (view ctx) kw) (fun frames_view =>
               rbind (len frames_view) (fun n => Ok (summary n))),
               log ++ [(view ctx, kw)])
          end
      end
  end.
Proof.
  unfold execute, bind, lift, ret, call_to_frames, resolved_kwargs, summary.
  rewrite !pass_through.
  destruct (_parse_wh (get (params ctx) "size" VNone)); [|reflexivity].
  destruct (_parse_wh (get (params ctx) "min_size" VNone)); [|reflexivity].
  destruct (_parse_wh (get (params ctx) "max_size" VNone)); [|reflexivity].
  cbv zeta.
  match goal with |- context [to_frames ?v ?k] => destruct (to_frames v k) as [fv|e] end;
    [|reflexivity].
  simpl. destruct (len fv); reflexivity.
Qed.

(** A dimension field that is absent or well-formed parses. *)
Lemma dimension_ok_parses (p : gmap string value) (field : string) :
  dimension_ok (p !! field) -> exists r, _parse_wh (get p field VNone) = Ok r.
Proof.
  unfold get. intros [-> | [-> | (s & -> & [Hb | Hw])]]; simpl default.
  - eexists. reflexivity.
  - eexists. reflexivity.
  - exists None. rewrite parse_wh_str, (strip_blank s Hb). reflexivity.
  - destruct Hw as (a & b & Hab & Ha & Hb & [z1 H1] & [z2 H2]).
    exists (Some (z1, z2)). rewrite parse_wh_nonblank.
    + rewrite Hab. unfold parse_trimmed. rewrite (parts_of_pair a b Ha Hb).
      simpl. rewrite H1. simpl. rewrite H2. reflexivity.
    + rewrite Hab. apply app_not_empty_r. discriminate.
Qed.

(** A dimension field that holds a malformed string does not. *)
Lemma dimension_malformed_raises (p : gmap string value) (field : string) :
  dimension_malformed (p !! field) ->
  exists msg, _parse_wh (get p field VNone) = Raise (ValueError msg).
Proof.
  unfold get. intros (s & -> & Hs). simpl default. apply malformed_raises, Hs.
Qed.

(** The parser raises nothing but a [ValueError] on a string. *)
Lemma parse_wh_str_error (s : string) (e : exn) :
  _parse_wh (VStr s) = Raise e -> exn_class e = "ValueError".
Proof.
  rewrite parse_wh_str. destruct (String.eqb (Py.strip s) ""); [discriminate|].
  unfold parse_trimmed.
  destruct (negb _); [intros [= <-]; reflexivity|].
  destruct (int_outcome (nth 0 (map Py.strip (Py.split "," (Py.strip s))) ""))
    as [[z1 ->] | [_ (m1 & -> & _)]]; simpl; [|intros [= <-]; reflexivity].
  destruct (int_outcome (nth 1 (map Py.strip (Py.split "," (Py.strip s))) ""))
    as [[z2 ->] | [_ (m2 & -> & _)]]; simpl; [discriminate | intros [= <-]; reflexivity].
Qed.

(** Every run that fails in a parse leaves the record of calls as it was. *)
Lemma execute_parse_failure (ctx : context View) (log : list (call View)) :
  (exists field e, In field dimension_fields /\
                   _parse_wh (get (params ctx) field VNone) = Raise e) ->
  exists field e,
    In field dimension_fields /\
    _parse_wh (get (params ctx) field VNone) = Raise e /\
    execute to_frames len ctx log = (Raise e, log).
Proof.
  intros Hfail. rewrite execute_unfold.
  destruct (_parse_wh (get (params ctx) "size" VNone)) as [sz|e1] eqn:E1.
  2:{ exists "size", e1. simpl. auto. }
  destruct (_parse_wh (get (params ctx) "min_size" VNone)) as [mn|e2] eqn:E2.
  2:{ exists "min_size", e2. simpl. auto. }
  destruct (_parse_wh (get (params ctx) "max_size" VNone)) as [mx|e3] eqn:E3.
  2:{ exists "max_size", e3. simpl. auto. }
  exfalso. destruct Hfail as (field & e & Hin & He).
  simpl in Hin. destruct Hin as [<- | [<- | [<- | []]]]; congruence.
Qed.

(** Every run whose three parses succeed makes exactly one call. *)
Lemma execute_parse_success (ctx : context View) (log : list (call View))
      (sz mn mx : option (Z * Z)) :
  _parse_wh (get (params ctx) "size" VNone) = Ok sz ->
  _parse_wh (get (params ctx) "min_size" VNone) = Ok mn ->
  _parse_wh (get (params ctx) "max_size" VNone) = Ok mx ->
  execute to_frames len ctx log =
  (rbind (to_frames (view ctx) (resolved_kwargs (params ctx) sz mn mx))
     (fun frames_view => rbind (len frames_view) (fun n => Ok (summary n))),
   log ++ [(view ctx, resolved_kwargs (params ctx) sz mn mx)]).
Proof. intros H1 H2 H3. rewrite execute_unfold, H1, H2, H3. reflexivity. Qed.

(** The calls of a run from an empty record: none, or the one with the
    resolved arguments. *)
Lemma execute_calls (ctx : context View) (v : View) (kw : to_frames_kwargs) :
  In (v, kw) (snd (execute to_frames len ctx [])) ->
  exists sz mn mx,
    _parse_wh (get (params ctx) "size" VNone) = Ok sz /\
    _parse_wh (get (params ctx) "min_size" VNone) = Ok mn /\
    _parse_wh (get (params ctx) "max_size" VNone) = Ok mx /\
    v = view ctx /\ kw = resolved_kwargs (params ctx) sz mn mx.
Proof.
  rewrite execute_unfold.
  destruct (_parse_wh (get (params ctx) "size" VNone)) as [sz|]; [|intros []].
  destruct (_parse_wh (get (params ctx) "min_size" VNone)) as [mn|]; [|intros []].
  destruct (_parse_wh (get (params ctx) "max_size" VNone)) as [mx|]; [|intros []].
  simpl. intros [[= <- <-] | []]. exists sz, mn, mx. auto.
Qed.

End OperatorFacts.

(** C1.  When one of [size], [min_size], [max_size] holds a malformed
    string, the run ends in the error the parser raises on a dimension
    field, and the record of calls is left as it was: the sampling
    routine is not invoked.  When the dimension fields hold nothing but
    strings and [None], that error is a [ValueError]. *)
Theorem execute_rejects_malformed {View FramesView : Type}
    (to_frames : View -> to_frames_kwargs -> result FramesView)
    (len : FramesView -> result nat)
    (ctx : context View) (log : list (call View)) :
  (exists field, In field dimension_fields /\
                 dimension_malformed (params ctx !! field)) ->
  exists field e,
    In field dimension_fields /\
    _parse_wh (get (params ctx) field VNone) = Raise e /\
    execute to_frames len ctx log = (Raise e, log) /\
    ((forall k v, In k dimension_fields -> params ctx !! k = Some v ->
                  v = VNone \/ exists s, v = VStr s) ->
     exn_class e = "ValueError").
Proof.
  intros (field & Hin & Hbad).
  destruct (dimension_malformed_raises _ _ Hbad) as [msg Hmsg].
  destruct (execute_parse_failure to_frames len ctx log) as (k & e & Hk & He & Hrun).
  { exists field, (ValueError msg). auto. }
  exists k, e. repeat (split; [assumption|]).
  intros Htyped. unfold get in He.
  destruct (params ctx !! k) as [v|] eqn:Ek; simpl in He; [|discriminate].
  destruct (Htyped k v Hk Ek) as [-> | [s ->]]; [discriminate|].
  apply (parse_wh_str_error s e He).
Qed.

Lemma execute_rejects_malformed_witness :
  exists field e,
    In field dimension_fields /\
    _parse_wh (get (<[ "max_size" := VStr "a,b" ]> sample_params) field VNone) = Raise e /\
    execute keep_frames count_frames
      (Context (<[ "max_size" := VStr "a,b" ]> sample_params) [1; 2; 3]%nat) []
    = (Raise e, []) /\
    ((forall k v, In k dimension_fields ->
                  (<[ "max_size" := VStr "a,b" ]> sample_params) !! k = Some v ->
                  v = VNone \/ exists s, v = VStr s) ->
     exn_class e = "ValueError").
Proof.
  refine (execute_rejects_malformed keep_frames count_frames
            (Context (<[ "max_size" := VStr "a,b" ]> sample_params) [1; 2; 3]%nat) [] _).
  exists "max_size". split; [simpl; auto|].
  exists "a,b". split; [reflexivity | exact malformed_letters].
Defined.

(** C4.  In a run that reaches the sampling routine, each flag that is
    omitted from the parameters is passed with its default:
    [skip_failures] as [True], and [sample_frames], [sparse],
    [force_sample] and [verbose] as [False]. *)
Theorem execute_flag_defaults {View FramesView : Type}
    (to_frames : View -> to_frames_kwargs -> result FramesView)
    (len : FramesView -> result nat)
    (ctx : context View) (log : list (call View)) :
  (forall field, In field dimension_fields -> dimension_ok (params ctx !! field)) ->
  exists kw,
    snd (execute to_frames len ctx log) = log ++ [(view ctx, kw)] /\
    (params ctx !! "sample_frames" = None -> sample_frames kw = false) /\
    (params ctx !! "sparse" = None -> sparse kw = false) /\
    (params ctx !! "force_sample" = None -> force_sample kw = false) /\
    (params ctx !! "skip_failures" = None -> skip_failures kw = true) /\
    (params ctx !! "verbose" = None -> verbose kw = false).
Proof.
  intros Hok.
  destruct (dimension_ok_parses (params ctx) "size") as [sz Hsz];
    [apply Hok; simpl; auto|].
  destruct (dimension_ok_parses (params ctx) "min_size") as [mn Hmn];
    [apply Hok; simpl; auto|].
  destruct (dimension_ok_parses (params ctx) "max_size") as [mx Hmx];
    [apply Hok; simpl; auto|].
  exists (resolved_kwargs (params ctx) sz mn mx).
  rewrite (execute_parse_success to_frames len ctx log sz mn mx Hsz Hmn Hmx).
  split; [reflexivity|].
  unfold resolved_kwargs, get; simpl.
  repeat split; intros ->; reflexivity.
Qed.

Lemma execute_flag_defaults_witness :
  exists kw,
    snd (execute keep_frames count_frames
           (Context (<[ "verbose" := VBool true ]> sample_params) [1; 2; 3]%nat) [])
    = [] ++ [([1; 2; 3]%nat, kw)] /\
    sample_frames kw = false /\ sparse kw = false /\ force_sample kw = false /\
    skip_failures kw = true /\ verbose kw = true.
Proof.
  destruct (execute_flag_defaults keep_frames count_frames
              (Context (<[ "verbose" := VBool true ]> sample_params) [1; 2; 3]%nat) [])
    as (kw & Hrun & H1 & H2 & H3 & H4 & _).
  - intros field [<- | [<- | [<- | []]]].
    + right. right. exists "1280,720". split; [reflexivity|]. right.
      exists "1280", "720". repeat split; eexists; reflexivity.
    + left. reflexivity.
    + left. reflexivity.
  - exists kw. split; [exact Hrun|].
    split; [apply H1; reflexivity|]. split; [apply H2; reflexivity|].
    split; [apply H3; reflexivity|]. split; [apply H4; reflexivity|].
    simpl in Hrun. injection Hrun as <-. reflexivity.
Defined.

(** A dimension field parses to what it stands for. *)
Lemma dimension_denotes_parses (p : gmap string value) (field : string)
      (r : option (Z * Z)) :
  dimension_denotes (p !! field) r -> _parse_wh (get p field VNone) = Ok r.
Proof.
  unfold get. intros H. destruct H as [| | s Hb | w0 t1 w1 w2 t2 w3 z1 z2
                                         H0 H1 H2 H3 T1 T2 B1 B2]; simpl default.
  - reflexivity.
  - reflexivity.
  - rewrite parse_wh_str, (strip_blank s Hb). reflexivity.
  - destruct (parts_of_padded_tokens w0 t1 w1 w2 t2 w3 z1 z2 H0 H1 H2 H3 T1 T2)
      as [Hne Hparts].
    rewrite (parse_wh_nonblank _ Hne). unfold parse_trimmed. rewrite Hparts.
    simpl. rewrite (int_of_token t1 z1 T1 B1). simpl.
    rewrite (int_of_token t2 z2 T2 B2). reflexivity.
Qed.

(** C5, as the specification words it, fails: with a well-formed [size]
    whose first token has 4301 digits the run ends in the error of
    [int()] and the sampling routine is not invoked. *)
Lemma execute_long_token_makes_no_call :
  int_token long_token (decimal_value long_token) /\ int_token "1" 1 /\
  execute keep_frames count_frames
    (Context (<[ "size" := VStr (long_token +:+ String "," "1") ]> ∅) [1; 2; 3]%nat) []
  = (Raise (ValueError "Exceeds the limit (4300 digits) for integer string conversion: value has 4301 digits; use sys.set_int_max_str_digits() to increase the limit"),
     []).
Proof.
  split; [exact long_token_is_token|]. split.
  - apply (token_digits "1"); [discriminate | reflexivity].
  - vm_compute. reflexivity.
Qed.

(** C5, amended.  When each dimension field is absent or well-formed
    with no token of more than 4300 digits, a run invokes the sampling
    routine exactly once, on the view of the context.  The call carries the pair each dimension field stands for;
    [fps] and [max_fps] as they are in the parameters ([None] when
    absent); for each string field [None] when it is absent, [None] or
    empty, and the string itself when it is not empty; for each flag the
    boolean given, and its default when absent. *)
Theorem execute_invokes_once {View FramesView : Type}
    (to_frames : View -> to_frames_kwargs -> result FramesView)
    (len : FramesView -> result nat)
    (ctx : context View) (log : list (call View))
    (sz mn mx : option (Z * Z)) :
  dimension_denotes (params ctx !! "size") sz ->
  dimension_denotes (params ctx !! "min_size") mn ->
  dimension_denotes (params ctx !! "max_size") mx ->
  exists kw,
    snd (execute to_frames len ctx log) = log ++ [(view ctx, kw)] /\
    size kw = sz /\ min_size kw = mn /\ max_size kw = mx /\
    (params ctx !! "fps" = None -> fps kw = VNone) /\
    (forall x, params ctx !! "fps" = Some x -> fps kw = x) /\
    (params ctx !! "max_fps" = None -> max_fps kw = VNone) /\
    (forall x, params ctx !! "max_fps" = Some x -> max_fps kw = x) /\
    (forall field, In field string_fields ->
       (params ctx !! field = None \/ params ctx !! field = Some VNone \/
        params ctx !! field = Some (VStr EmptyString) ->
        string_kwarg field kw = VNone) /\
       (forall s, params ctx !! field = Some (VStr s) -> s <> EmptyString ->
                  string_kwarg field kw = VStr s)) /\
    (forall field, In field flag_fields ->
       (params ctx !! field = None ->
        flag_kwarg field kw = String.eqb field "skip_failures") /\
       (forall b, params ctx !! field = Some (VBool b) -> flag_kwarg field kw = b)).
Proof.
  intros H1 H2 H3.
  pose proof (dimension_denotes_parses _ _ _ H1) as Hsz.
  pose proof (dimension_denotes_parses _ _ _ H2) as Hmn.
  pose proof (dimension_denotes_parses _ _ _ H3) as Hmx.
  exists (resolved_kwargs (params ctx) sz mn mx).
  rewrite (execute_parse_success to_frames len ctx log sz mn mx Hsz Hmn Hmx).
  repeat (split; [reflexivity|]).
  unfold resolved_kwargs, get.
  cbn [fps max_fps].
  split; [intros ->; reflexivity|]. split; [intros x ->; reflexivity|].
  split; [intros ->; reflexivity|]. split; [intros x ->; reflexivity|].
  split.
  - intros field Hin. simpl in Hin.
    destruct Hin as [<- | [<- | [<- | []]]];
      unfold string_kwarg; simpl (String.eqb _ _); cbv beta iota;
      cbn [output_dir rel_dir frames_patt];
      (split;
       [intros [-> | [-> | ->]]; reflexivity
       | intros s -> Hs; simpl; unfold Py.or_none; simpl;
         destruct (String.eqb_spec s ""); [contradiction | reflexivity]]).
  - intros field Hin. simpl in Hin.
    destruct Hin as [<- | [<- | [<- | [<- | [<- | []]]]]];
      unfold flag_kwarg; simpl (String.eqb _ _); cbv beta iota;
      cbn [sample_frames sparse force_sample skip_failures verbose];
      (split; [intros ->; reflexivity | intros b ->; reflexivity]).
Qed.

Lemma execute_invokes_once_witness :
  snd (execute keep_frames count_frames (Context full_params [1; 2; 3]%nat) []) =
  [([1; 2; 3]%nat,
    {| sample_frames := false; fps := five_fps; max_fps := VNone;
       size := Some (1280, 720); min_size := None; max_size := None;
       sparse := false; output_dir := VStr "/tmp/frames "; rel_dir := VNone;
       frames_patt := VNone;
       force_sample := false; skip_failures := false; verbose := true |})].
Proof.
  assert (Hb : blank " ") by reflexivity.
  assert (T1 : int_token "1280" 1280).
  { apply (token_digits "1280"); [discriminate | reflexivity]. }
  assert (T2 : int_token "720" 720).
  { apply (token_digits "720"); [discriminate | reflexivity]. }
  assert (B1 : (count_digits "1280" <= Py.int_max_str_digits)%nat)
    by (apply Nat.leb_le; reflexivity).
  assert (B2 : (count_digits "720" <= Py.int_max_str_digits)%nat)
    by (apply Nat.leb_le; reflexivity).
  destruct (execute_invokes_once keep_frames count_frames
              (Context full_params [1; 2; 3]%nat) []
              (Some (1280, 720)) None None)
    as (kw & Hrun & Hsz & Hmn & Hmx & _ & Hfps & Hmax & _ & Hstr & Hflag).
  - exact (denotes_pair " " "1280" " " " " "720" " " 1280 720 Hb Hb Hb Hb T1 T2 B1 B2).
  - exact denotes_missing.
  - exact denotes_missing.
  - rewrite Hrun. simpl view. simpl app. do 2 f_equal.
    pose proof (Hfps five_fps eq_refl) as Efps.
    pose proof (Hmax eq_refl) as Emax.
    pose proof (proj2 (Hstr "output_dir" (or_introl eq_refl))
                  "/tmp/frames " eq_refl ltac:(discriminate)) as Eout.
    pose proof (proj1 (Hstr "rel_dir" (or_intror (or_introl eq_refl)))
                  (or_intror (or_intror eq_refl))) as Erel.
    pose proof (proj1 (Hstr "frames_patt" (or_intror (or_intror (or_introl eq_refl))))
                  (or_introl eq_refl)) as Epatt.
    pose proof (proj1 (Hflag "sample_frames" ltac:(simpl; auto)) eq_refl) as Esample.
    pose proof (proj1 (Hflag "sparse" ltac:(simpl; auto)) eq_refl) as Esparse.
    pose proof (proj1 (Hflag "force_sample" ltac:(simpl; auto)) eq_refl) as Eforce.
    pose proof (proj2 (Hflag "skip_failures" ltac:(simpl; auto)) false eq_refl) as Eskip.
    pose proof (proj2 (Hflag "verbose" ltac:(simpl; auto 10)) true eq_refl) as Everb.
    change (output_dir kw = VStr "/tmp/frames ") in Eout.
    change (rel_dir kw = VNone) in Erel.
    change (frames_patt kw = VNone) in Epatt.
    change (sample_frames kw = false) in Esample.
    change (sparse kw = false) in Esparse.
    change (force_sample kw = false) in Eforce.
    change (skip_failures kw = false) in Eskip.
    change (verbose kw = true) in Everb.
    clear Hrun Hfps Hmax Hstr Hflag.
    destruct kw. cbn in *. subst. reflexivity.
Defined.

(** C6.  A run that succeeds answers [{"num_frames": n}], where [n] is
    what [len] gives on the view the sampling routine returned in the
    one call of the run; this holds whatever the routine and [len] are,
    so the count is theirs and not the operator's. *)
Theorem execute_returns_count {View FramesView : Type}
    (to_frames : View -> to_frames_kwargs -> result FramesView)
    (len : FramesView -> result nat)
    (ctx : context View) (r : gmap string value) (trace : list (call View)) :
  execute to_frames len ctx [] = (Ok r, trace) ->
  exists kw frames_view n,
    trace = [(view ctx, kw)] /\
    to_frames (view ctx) kw = Ok frames_view /\
    len frames_view = Ok n /\
    r = {[ "num_frames" := VInt (Z.of_nat n) ]}.
Proof.
  rewrite execute_unfold.
  destruct (_parse_wh (get (params ctx) "size" VNone)) as [sz|]; [|discriminate].
  destruct (_parse_wh (get (params ctx) "min_size" VNone)) as [mn|]; [|discriminate].
  destruct (_parse_wh (get (params ctx) "max_size" VNone)) as [mx|]; [|discriminate].
  cbv zeta.
  destruct (to_frames (view ctx) (resolved_kwargs (params ctx) sz mn mx))
    as [fv|] eqn:Ecall; simpl; [|discriminate].
  destruct (len fv) as [n|] eqn:Elen; simpl; [|discriminate].
  intros [= <- <-]. exists (resolved_kwargs (params ctx) sz mn mx), fv, n. auto.
Qed.

Lemma execute_returns_count_witness :
  exists kw frames_view n,
    size kw = Some (1280, 720) /\ fps kw = five_fps /\
    keep_frames [4; 5; 6; 7]%nat kw = Ok frames_view /\
    count_frames frames_view = Ok n /\
    fst (execute keep_frames count_frames (Context sample_params [4; 5; 6; 7]%nat) [])
    = Ok {[ "num_frames" := VInt (Z.of_nat n) ]} /\
    n = 4%nat.
Proof.
  destruct (execute_returns_count keep_frames count_frames
              (Context sample_params [4; 5; 6; 7]%nat)
              (summary 4)
              [([4; 5; 6; 7]%nat, resolved_kwargs sample_params (Some (1280, 720)) None None)])
    as (kw & fv & n & Htrace & Hcall & Hlen & Hr).
  - reflexivity.
  - injection Htrace as <-.
    exists (resolved_kwargs sample_params (Some (1280, 720)) None None), fv, n.
    split; [reflexivity|]. split; [reflexivity|].
    split; [exact Hcall|]. split; [exact Hlen|].
    injection Hcall as <-. injection Hlen as <-. split; reflexivity.
Defined.

(** C7.  When [output_dir], [rel_dir] or [frames_patt] is the empty
    string, the run is the one of the parameters without that field, and
    in every call made the field is passed as [None]. *)
Theorem execute_empty_string_is_absent {View FramesView : Type}
    (to_frames : View -> to_frames_kwargs -> result FramesView)
    (len : FramesView -> result nat)
    (ctx : context View) (log : list (call View)) (field : string) :
  In field string_fields ->
  params ctx !! field = Some (VStr EmptyString) ->
  execute to_frames len ctx log =
  execute to_frames len (Context (delete field (params ctx)) (view ctx)) log /\
  (forall v kw, In (v, kw) (snd (execute to_frames len ctx [])) ->
                string_kwarg field kw = VNone).
Proof.
  intros Hin Hempty.
  assert (Hhere : Py.or_none (get (params ctx) field VNone) = VNone).
  { unfold get. rewrite Hempty. reflexivity. }
  assert (Hgone : Py.or_none (get (delete field (params ctx)) field VNone) = VNone).
  { unfold get. rewrite lookup_delete_eq. reflexivity. }
  split.
  - rewrite !execute_unfold. simpl params. simpl view.
    assert (Hget : forall k d, k <> field ->
               get (delete field (params ctx)) k d = get (params ctx) k d).
    { intros k d Hk. unfold get. rewrite lookup_delete_ne by congruence. reflexivity. }
    assert (Hres : forall sz mn mx,
               resolved_kwargs (delete field (params ctx)) sz mn mx =
               resolved_kwargs (params ctx) sz mn mx).
    { intros sz mn mx. unfold resolved_kwargs.
      simpl in Hin. destruct Hin as [<- | [<- | [<- | []]]];
        rewrite Hgone, Hhere, !Hget by discriminate; reflexivity. }
    assert (Hdims : forall k, In k dimension_fields -> k <> field).
    { intros k Hk ->. simpl in Hin, Hk.
      destruct Hin as [<- | [<- | [<- | []]]];
        destruct Hk as [H | [H | [H | []]]]; discriminate H. }
    rewrite !Hget by (apply Hdims; simpl; auto).
    destruct (_parse_wh (get (params ctx) "size" VNone)); [|reflexivity].
    destruct (_parse_wh (get (params ctx) "min_size" VNone)); [|reflexivity].
    destruct (_parse_wh (get (params ctx) "max_size" VNone)); [|reflexivity].
    cbv zeta. rewrite Hres. reflexivity.
  - intros v kw Hcall.
    destruct (execute_calls to_frames len ctx v kw Hcall)
      as (sz & mn & mx & _ & _ & _ & _ & ->).
    simpl in Hin. destruct Hin as [<- | [<- | [<- | []]]]; exact Hhere.
Qed.

Lemma execute_empty_string_is_absent_witness :
  execute keep_frames count_frames (Context sample_params [1; 2; 3]%nat) [] =
  execute keep_frames count_frames
    (Context (delete "output_dir" sample_params) [1; 2; 3]%nat) [] /\
  (forall v kw,
      In (v, kw) (snd (execute keep_frames count_frames
                         (Context sample_params [1; 2; 3]%nat) [])) ->
      string_kwarg "output_dir" kw = VNone) /\
  length (snd (execute keep_frames count_frames
                 (Context sample_params [1; 2; 3]%nat) [])) = 1%nat.
Proof.
  destruct (execute_empty_string_is_absent keep_frames count_frames
              (Context sample_params [1; 2; 3]%nat) [] "output_dir") as [Hsame Hnone].
  - left. reflexivity.
  - reflexivity.
  - split; [exact Hsame|]. split; [exact Hnone|]. reflexivity.
Defined.

(** C9.  When the sampling routine raises in the call a run makes, the
    run ends in that very error, and the call stays the only one: the
    error is neither caught nor replaced, and the routine is not tried
    again. *)
Theorem execute_propagates {View FramesView : Type}
    (to_frames : View -> to_frames_kwargs -> result FramesView)
    (len : FramesView -> result nat)
    (ctx : context View) (v : View) (kw : to_frames_kwargs) (e : exn) :
  In (v, kw) (snd (execute to_frames len ctx [])) ->
  to_frames v kw = Raise e ->
  execute to_frames len ctx [] = (Raise e, [(v, kw)]).
Proof.
  intros Hcall Hraise.
  destruct (execute_calls to_frames len ctx v kw Hcall)
    as (sz & mn & mx & Hsz & Hmn & Hmx & -> & ->).
  rewrite (execute_parse_success to_frames len ctx [] sz mn mx Hsz Hmn Hmx).
  rewrite Hraise. reflexivity.
Qed.

Lemma execute_propagates_witness :
  execute unreadable count_frames (Context sample_params [1; 2; 3]%nat) [] =
  (Raise (Exn "OSError" "cannot read video"),
   [([1; 2; 3]%nat, resolved_kwargs sample_params (Some (1280, 720)) None None)]).
Proof.
  apply (execute_propagates unreadable count_frames
           (Context sample_params [1; 2; 3]%nat)).
  - left. reflexivity.
  - reflexivity.
Defined.

(** ** More on trimming and splitting *)

Section TrimFacts.

Lemma string_length_app (s t : string) :
  String.length (s +:+ t) = (String.length s + String.length t)%nat.
Proof.
  induction s as [|c s IH]; [reflexivity|].
  rewrite app_cons. simpl. rewrite IH. reflexivity.
Qed.

Lemma length_zero (s : string) : String.length s = 0%nat -> s = EmptyString.
Proof. destruct s; [reflexivity | discriminate]. Qed.

Lemma lstrip_length (s : string) : (String.length (Py.lstrip s) <= String.length s)%nat.
Proof.
  induction s as [|c s IH]; simpl; [lia|].
  destruct (Py.isspace c); simpl; lia.
Qed.

Lemma rstrip_length (s : string) : (String.length (Py.rstrip s) <= String.length s)%nat.
Proof.
  induction s as [|c s IH]; simpl; [lia|].
  destruct (Py.rstrip s); [destruct (Py.isspace c)|]; simpl in *; lia.
Qed.

(** What [lstrip] removes is a blank prefix. *)
Lemma lstrip_prefix (s : string) :
  exists w, blank w /\ s = w +:+ Py.lstrip s.
Proof.
  induction s as [|c s (w & Hw & Hs)].
  - exists EmptyString. split; reflexivity.
  - simpl. destruct (Py.isspace c) eqn:Ec.
    + exists (String c w). split.
      * unfold blank in *. simpl. rewrite Ec, Hw. reflexivity.
      * rewrite app_cons, <- Hs. reflexivity.
    + exists EmptyString. split; reflexivity.
Qed.

(** What [rstrip] removes is a blank suffix. *)
Lemma rstrip_suffix (s : string) :
  exists w, blank w /\ s = Py.rstrip s +:+ w.
Proof.
  induction s as [|c s (w & Hw & Hs)].
  - exists EmptyString. split; reflexivity.
  - simpl. destruct (Py.rstrip s) as [|d r] eqn:Er.
    + rewrite app_empty_l in Hs. subst w. destruct (Py.isspace c) eqn:Ec.
      * exists (String c s). split; [|reflexivity].
        unfold blank in *. simpl. rewrite Ec, Hw. reflexivity.
      * exists s. split; [exact Hw | reflexivity].
    + exists w. split; [exact Hw|]. rewrite app_cons, <- Hs. reflexivity.
Qed.

Lemma rstrip_idempotent (s : string) : Py.rstrip (Py.rstrip s) = Py.rstrip s.
Proof.
  induction s as [|c s IH]; [reflexivity|].
  simpl. destruct (Py.rstrip s) as [|d r] eqn:Er.
  - destruct (Py.isspace c) eqn:Ec; [reflexivity|]. simpl. rewrite Ec. reflexivity.
  - change (Py.rstrip (String c (String d r))) with
      (match Py.rstrip (String d r) with
       | EmptyString => if Py.isspace c then EmptyString else String c EmptyString
       | r' => String c r'
       end).
    rewrite IH. reflexivity.
Qed.

(** [lstrip] answers with the empty string or with a string whose first
    character is no white space. *)
Lemma lstrip_head (s : string) :
  Py.lstrip s = EmptyString \/
  exists c r, Py.lstrip s = String c r /\ Py.isspace c = false.
Proof.
  induction s as [|c s IH]; [left; reflexivity|].
  simpl. destruct (Py.isspace c) eqn:Ec; [exact IH|].
  right. exists c, s. auto.
Qed.

Lemma lstrip_strip (s : string) : Py.lstrip (Py.strip s) = Py.strip s.
Proof.
  unfold Py.strip. destruct (lstrip_head s) as [-> | (c & r & -> & Hc)]; [reflexivity|].
  simpl. destruct (Py.rstrip r); rewrite ?Hc; simpl; rewrite Hc; reflexivity.
Qed.

Lemma strip_trimmed (s : string) : trimmed (Py.strip s).
Proof.
  intros w u Hw. split; intros Heq; apply length_zero.
  - pose proof (lstrip_strip s) as Hl. rewrite Heq in Hl.
    rewrite (lstrip_blank_app w u Hw) in Hl.
    pose proof (lstrip_length u) as Hlen. rewrite Hl, string_length_app in Hlen. lia.
  - pose proof (rstrip_idempotent (Py.lstrip s)) as Hr.
    fold (Py.strip s) in Hr. rewrite Heq in Hr.
    rewrite (rstrip_app_blank u w Hw) in Hr.
    pose proof (rstrip_length u) as Hlen. rewrite Hr, string_length_app in Hlen. lia.
Qed.

Lemma strip_app_blank (s w : string) : blank w -> Py.strip (s +:+ w) = Py.strip s.
Proof.
  intros Hw. unfold Py.strip. induction s as [|c s IH].
  - rewrite app_empty_l, (lstrip_blank w Hw). reflexivity.
  - rewrite app_cons. simpl. destruct (Py.isspace c); [exact IH|].
    rewrite <- app_cons. apply rstrip_app_blank, Hw.
Qed.

Lemma strip_blank_app (w s : string) : blank w -> Py.strip (w +:+ s) = Py.strip s.
Proof. intros Hw. unfold Py.strip. rewrite (lstrip_blank_app w s Hw). reflexivity. Qed.

(** A string that trims to nothing is blank. *)
Lemma strip_empty_blank (s : string) : Py.strip s = EmptyString -> blank s.
Proof.
  intros He.
  destruct (lstrip_prefix s) as (w0 & H0 & Hs).
  destruct (rstrip_suffix (Py.lstrip s)) as (w3 & H3 & Hr).
  fold (Py.strip s) in Hr. rewrite He, app_empty_l in Hr.
  rewrite Hs, Hr. unfold blank in *. rewrite string_forall_app, H0, H3. reflexivity.
Qed.

Lemma split_not_nil (sep : ascii) (s : string) : Py.split sep s <> [].
Proof.
  intros He. pose proof (split_length sep s) as Hl. rewrite He in Hl. discriminate.
Qed.

Lemma join_cons (sep : ascii) (p : string) (rest : list string) :
  rest <> [] -> join sep (p :: rest) = p +:+ String sep (join sep rest).
Proof. destruct rest; [congruence | reflexivity]. Qed.

Lemma join_split (sep : ascii) (s : string) : join sep (Py.split sep s) = s.
Proof.
  induction s as [|c s IH]; [reflexivity|].
  simpl. destruct (Ascii.eqb c sep) eqn:Ec.
  - apply Ascii.eqb_eq in Ec. subst c.
    rewrite join_cons by apply split_not_nil. rewrite IH. reflexivity.
  - destruct (Py.split sep s) as [|p ps] eqn:Es; [destruct (split_not_nil _ _ Es)|].
    destruct ps as [|q ps].
    + simpl in *. congruence.
    + rewrite join_cons by discriminate. rewrite join_cons in IH by discriminate.
      rewrite app_cons, IH. reflexivity.
Qed.

Lemma split_parts_clean (sep : ascii) (s : string) :
  Forall (fun p => Py.has_char sep p = false) (Py.split sep s).
Proof.
  induction s as [|c s IH]; [repeat constructor|].
  simpl. destruct (Ascii.eqb c sep) eqn:Ec.
  - constructor; [reflexivity | exact IH].
  - destruct (Py.split sep s) as [|p ps]; [repeat constructor; simpl; rewrite Ec; reflexivity|].
    inversion IH as [|? ? Hp Hps]; subst. constructor; [|exact Hps].
    simpl. rewrite Ec, Hp. reflexivity.
Qed.

End TrimFacts.

(** X1.  [s.strip()] takes a blank prefix and a blank suffix off the
    string and nothing else, and what it leaves neither starts nor ends
    in white space. *)
Theorem strip_takes_blank_ends (s : string) :
  exists w0 w3,
    blank w0 /\ blank w3 /\ s = w0 +:+ Py.strip s +:+ w3 /\ trimmed (Py.strip s).
Proof.
  destruct (lstrip_prefix s) as (w0 & H0 & Hs).
  destruct (rstrip_suffix (Py.lstrip s)) as (w3 & H3 & Hr).
  exists w0, w3. split; [exact H0|]. split; [exact H3|]. split.
  - unfold Py.strip. rewrite <- Hr. exact Hs.
  - apply strip_trimmed.
Qed.

(** X2.  [s.split(sep)] cuts the string at every separator: joining the
    parts with the separator gives the string back, no part holds the
    separator, and there is one part more than there are separators. *)
Theorem split_cuts_at_separators (sep : ascii) (s : string) :
  join sep (Py.split sep s) = s /\
  Forall (fun p => Py.has_char sep p = false) (Py.split sep s) /\
  length (Py.split sep s) = S (count_char sep s).
Proof.
  split; [apply join_split|]. split; [apply split_parts_clean | apply split_length].
Qed.

(** ** More on the dimension-pair parser *)

Section ParserMore.

(** The body of the parser answers with a pair or raises; a pair comes
    from a string with exactly one comma. *)
Lemma parse_trimmed_pair (t : string) (r : option (Z * Z)) :
  parse_trimmed t = Ok r ->
  exists a b w h,
    r = Some (w, h) /\ t = a +:+ String "," b /\
    Py.has_char "," a = false /\ Py.has_char "," b = false /\
    Py.int (Py.strip a) = Ok w /\ Py.int (Py.strip b) = Ok h.
Proof.
  unfold parse_trimmed. rewrite length_map, split_length.
  destruct (Nat.eqb (S (count_char "," t)) 2) eqn:E; simpl; [|discriminate].
  apply Nat.eqb_eq in E.
  destruct (one_comma t) as (a & b & -> & Ha & Hb); [lia|].
  rewrite (parts_of_pair a b Ha Hb). simpl.
  destruct (Py.int (Py.strip a)) as [w|] eqn:Ew; simpl; [|discriminate].
  destruct (Py.int (Py.strip b)) as [h|] eqn:Eh; simpl; [|discriminate].
  intros [= <-]. exists a, b, w, h. auto 10.
Qed.

Lemma strip_padding (w0 s w3 : string) :
  blank w0 -> blank w3 -> Py.strip (w0 +:+ s +:+ w3) = Py.strip s.
Proof.
  intros H0 H3. rewrite (strip_blank_app w0 _ H0). apply strip_app_blank, H3.
Qed.

End ParserMore.

(** X3.  White space around a dimension string never matters: with any
    blank padding in front and behind, the parser gives the very same
    answer, be it a pair, [None] or an error with its message. *)
Theorem parse_wh_ignores_padding (w0 s w3 : string) :
  blank w0 -> blank w3 ->
  _parse_wh (VStr (w0 +:+ s +:+ w3)) = _parse_wh (VStr s).
Proof.
  intros H0 H3. rewrite !parse_wh_str, (strip_padding w0 s w3 H0 H3). reflexivity.
Qed.

Lemma parse_wh_ignores_padding_witness :
  blank "  " /\ blank " " /\
  _parse_wh (VStr "  640,480,100 ") = _parse_wh (VStr "640,480,100").
Proof.
  assert (H0 : blank "  ") by reflexivity.
  assert (H3 : blank " ") by reflexivity.
  split; [exact H0|]. split; [exact H3|].
  exact (parse_wh_ignores_padding "  " "640,480,100" " " H0 H3).
Defined.

(** X4.  The parser answers with a pair only for a string that, once
    trimmed, holds exactly one comma and whose two parts, once trimmed,
    [int()] reads; the pair is what [int()] reads from them. *)
Theorem parse_wh_pair_only_from_two_tokens (s : string) (w h : Z) :
  _parse_wh (VStr s) = Ok (Some (w, h)) ->
  exists a b,
    Py.strip s = a +:+ String "," b /\
    Py.has_char "," a = false /\ Py.has_char "," b = false /\
    Py.int (Py.strip a) = Ok w /\ Py.int (Py.strip b) = Ok h.
Proof.
  rewrite parse_wh_str. destruct (String.eqb (Py.strip s) ""); [discriminate|].
  intros Hp. destruct (parse_trimmed_pair _ _ Hp)
    as (a & b & w' & h' & [= <- <-] & Hab & Ha & Hb & Hw & Hh).
  exists a, b. auto.
Qed.

Lemma parse_wh_pair_only_from_two_tokens_witness :
  exists a b,
    Py.strip " +7 ,1_0" = a +:+ String "," b /\
    Py.has_char "," a = false /\ Py.has_char "," b = false /\
    Py.int (Py.strip a) = Ok 7 /\ Py.int (Py.strip b) = Ok 10.
Proof.
  apply (parse_wh_pair_only_from_two_tokens " +7 ,1_0" 7 10). reflexivity.
Defined.

(** X5.  On a string the parser answers [None] exactly when the string
    is blank (empty or white space only). *)
Theorem parse_wh_none_iff_blank (s : string) :
  _parse_wh (VStr s) = Ok None <-> blank s.
Proof.
  rewrite parse_wh_str. split.
  - destruct (String.eqb (Py.strip s) "") eqn:E.
    + intros _. apply strip_empty_blank, String.eqb_eq, E.
    + intros Hp. destruct (parse_trimmed_pair _ _ Hp) as (a & b & w & h & Hr & _).
      discriminate Hr.
  - intros Hb. rewrite (strip_blank s Hb). reflexivity.
Qed.

(** X6.  On the values a parameter dictionary can hold ([None],
    booleans, integers, floats, strings, lists and dictionaries) the
    parser raises two kinds of error and no other: a [ValueError], on
    strings only, and an [AttributeError] naming the type, on true
    values that are no strings (a number, [True], a non-empty list).
    A false value of any of these types gives [None]. *)
Theorem parse_wh_outcomes (v : value) :
  (Py.truthy v = false -> _parse_wh v = Ok None) /\
  (forall e, _parse_wh v = Raise e ->
     (exists s, v = VStr s /\ exn_class e = "ValueError") \/
     ((forall s, v <> VStr s) /\ Py.truthy v = true /\
      e = AttributeError
            ("'" +:+ Py.type_name v +:+ "' object has no attribute 'strip'"))).
Proof.
  split.
  - intros Hf. unfold _parse_wh. rewrite Hf. reflexivity.
  - intros e He. destruct (Py.truthy v) eqn:Ht.
    + destruct v as [|b|z|bits|s|items|entries];
        try (right; split; [intros ?; discriminate|]; split; [reflexivity|];
             unfold _parse_wh in He; rewrite Ht in He; cbn [negb] in He;
             injection He as <-; reflexivity).
      left. exists s. split; [reflexivity|]. apply (parse_wh_str_error s e He).
    + unfold _parse_wh in He. rewrite Ht in He. discriminate He.
Qed.

Lemma parse_wh_outcomes_witness :
  _parse_wh (VInt 0) = Ok None /\
  ((exists s, VInt 640 = VStr s /\
              exn_class (AttributeError "'int' object has no attribute 'strip'")
              = "ValueError") \/
   ((forall s, VInt 640 <> VStr s) /\ Py.truthy (VInt 640) = true /\
    AttributeError "'int' object has no attribute 'strip'" =
    AttributeError
      ("'" +:+ Py.type_name (VInt 640) +:+ "' object has no attribute 'strip'"))).
Proof.
  split.
  - apply (proj1 (parse_wh_outcomes (VInt 0))). reflexivity.
  - apply (proj2 (parse_wh_outcomes (VInt 640))). reflexivity.
Defined.

(** ** More on a run of the operator *)

Section OperatorMore.

Context {View FramesView : Type}.
Variable to_frames : View -> to_frames_kwargs -> result FramesView.
Variable len : FramesView -> result nat.

Lemma get_insert (p : gmap string value) (k name : string) (v d : value) :
  get (<[k:=v]> p) name d = if String.eqb name k then v else get p name d.
Proof.
  unfold get. destruct (String.eqb_spec name k) as [-> | Hne].
  - rewrite lookup_insert_eq. reflexivity.
  - rewrite lookup_insert_ne by congruence. reflexivity.
Qed.

Lemma get_missing (p : gmap string value) (name : string) (d : value) :
  p !! name = None -> get p name d = d.
Proof. unfold get. intros ->. reflexivity. Qed.

(** A run reads the parameters through the three dimension fields and
    the ten arguments it resolves, and through nothing else. *)
Lemma execute_agree (p q : gmap string value) (v : View) (log : list (call View)) :
  get p "size" VNone = get q "size" VNone ->
  get p "min_size" VNone = get q "min_size" VNone ->
  get p "max_size" VNone = get q "max_size" VNone ->
  resolved_kwargs p None None None = resolved_kwargs q None None None ->
  execute to_frames len (Context p v) log = execute to_frames len (Context q v) log.
Proof.
  intros H1 H2 H3 Hkw. rewrite !execute_unfold. simpl params. simpl view.
  rewrite H1, H2, H3.
  assert (Hres : forall sz mn mx,
             resolved_kwargs p sz mn mx = resolved_kwargs q sz mn mx).
  { intros sz mn mx. unfold resolved_kwargs in *. congruence. }
  destruct (_parse_wh (get q "size" VNone)); [|reflexivity].
  destruct (_parse_wh (get q "min_size" VNone)); [|reflexivity].
  destruct (_parse_wh (get q "max_size" VNone)); [|reflexivity].
  cbv zeta. rewrite Hres. reflexivity.
Qed.

Lemma declared_inputs (ctx : context View) :
  declared (resolve_input ctx) = parameter_names.
Proof. reflexivity. Qed.

(** A key that is none of the thirteen parameters is never read. *)
Lemma execute_ignores (p : gmap string value) (k : string) (x : value)
      (v : View) (log : list (call View)) :
  ~ In k parameter_names ->
  execute to_frames len (Context (<[k:=x]> p) v) log =
  execute to_frames len (Context p v) log.
Proof.
  intros Hout.
  assert (Hne : forall name d, In name parameter_names ->
              get (<[k:=x]> p) name d = get p name d).
  { intros name d Hin. rewrite get_insert.
    destruct (String.eqb_spec name k) as [-> | _]; [contradiction | reflexivity]. }
  apply execute_agree; [apply Hne; simpl; auto 20 ..|].
  unfold resolved_kwargs. rewrite !Hne by (simpl; auto 20). reflexivity.
Qed.

Lemma log_grows (log : list (call View)) (c : call View) : log ++ [c] <> log.
Proof.
  intros H. apply (f_equal (@length _)) in H. rewrite List.length_app in H.
  simpl in H. lia.
Qed.

End OperatorMore.

(** X7.  Parse errors are reported in field order: an error in [size]
    ends the run whatever [min_size] and [max_size] hold, an error in
    [min_size] comes next, and one in [max_size] is reported only when
    the other two parse.  In each case no call is made. *)
Theorem execute_reports_first_error {View FramesView : Type}
    (to_frames : View -> to_frames_kwargs -> result FramesView)
    (len : FramesView -> result nat)
    (ctx : context View) (log : list (call View)) (e : exn) :
  (_parse_wh (get (params ctx) "size" VNone) = Raise e ->
   execute to_frames len ctx log = (Raise e, log)) /\
  (forall sz,
      _parse_wh (get (params ctx) "size" VNone) = Ok sz ->
      _parse_wh (get (params ctx) "min_size" VNone) = Raise e ->
      execute to_frames len ctx log = (Raise e, log)) /\
  (forall sz mn,
      _parse_wh (get (params ctx) "size" VNone) = Ok sz ->
      _parse_wh (get (params ctx) "min_size" VNone) = Ok mn ->
      _parse_wh (get (params ctx) "max_size" VNone) = Raise e ->
      execute to_frames len ctx log = (Raise e, log)).
Proof.
  rewrite execute_unfold. split; [|split].
  - intros ->. reflexivity.
  - intros sz -> ->. reflexivity.
  - intros sz mn -> -> ->. reflexivity.
Qed.

Lemma execute_reports_first_error_witness :
  execute keep_frames count_frames
    (Context (<[ "size" := VStr "640" ]> (<[ "min_size" := VStr "a,b" ]> ∅))
             [1; 2; 3]%nat) []
  = (Raise (ValueError "Invalid width,height string: '640'"), []).
Proof.
  apply (proj1 (execute_reports_first_error keep_frames count_frames
                  (Context (<[ "size" := VStr "640" ]> (<[ "min_size" := VStr "a,b" ]> ∅))
                           [1; 2; 3]%nat) []
                  (ValueError "Invalid width,height string: '640'"))).
  reflexivity.
Defined.

(** X8.  A run makes no call or one call, and it makes the call exactly
    when all three dimension fields parse: nothing else in the
    parameters can keep the sampling routine from being invoked. *)
Theorem execute_calls_iff_dimensions_parse {View FramesView : Type}
    (to_frames : View -> to_frames_kwargs -> result FramesView)
    (len : FramesView -> result nat)
    (ctx : context View) (log : list (call View)) :
  (snd (execute to_frames len ctx log) = log \/
   exists kw, snd (execute to_frames len ctx log) = log ++ [(view ctx, kw)]) /\
  ((exists kw, snd (execute to_frames len ctx log) = log ++ [(view ctx, kw)]) <->
   (forall field, In field dimension_fields ->
                  exists r, _parse_wh (get (params ctx) field VNone) = Ok r)).
Proof.
  rewrite execute_unfold.
  destruct (_parse_wh (get (params ctx) "size" VNone)) as [sz|e1] eqn:E1.
  2:{ split; [left; reflexivity|]. split.
      - intros [kw Hkw]. simpl in Hkw. symmetry in Hkw. destruct (log_grows _ _ Hkw).
      - intros Hall. destruct (Hall "size") as [r Hr]; [simpl; auto|]. congruence. }
  destruct (_parse_wh (get (params ctx) "min_size" VNone)) as [mn|e2] eqn:E2.
  2:{ split; [left; reflexivity|]. split.
      - intros [kw Hkw]. simpl in Hkw. symmetry in Hkw. destruct (log_grows _ _ Hkw).
      - intros Hall. destruct (Hall "min_size") as [r Hr]; [simpl; auto|]. congruence. }
  destruct (_parse_wh (get (params ctx) "max_size" VNone)) as [mx|e3] eqn:E3.
  2:{ split; [left; reflexivity|]. split.
      - intros [kw Hkw]. simpl in Hkw. symmetry in Hkw. destruct (log_grows _ _ Hkw).
      - intros Hall. destruct (Hall "max_size") as [r Hr]; [simpl; auto|]. congruence. }
  cbv zeta. simpl snd. split; [right; eauto|]. split; [|eauto].
  intros _ field [<- | [<- | [<- | []]]]; eauto.
Qed.

(** X9.  When [len] of the returned view raises, the run ends in that
    very error; the one call to the sampling routine has been made by
    then and is not repeated. *)
Theorem execute_propagates_len_error {View FramesView : Type}
    (to_frames : View -> to_frames_kwargs -> result FramesView)
    (len : FramesView -> result nat)
    (ctx : context View) (v : View) (kw : to_frames_kwargs)
    (frames_view : FramesView) (e : exn) :
  In (v, kw) (snd (execute to_frames len ctx [])) ->
  to_frames v kw = Ok frames_view ->
  len frames_view = Raise e ->
  execute to_frames len ctx [] = (Raise e, [(v, kw)]).
Proof.
  intros Hcall Hok Hlen.
  destruct (execute_calls to_frames len ctx v kw Hcall)
    as (sz & mn & mx & Hsz & Hmn & Hmx & -> & ->).
  rewrite (execute_parse_success to_frames len ctx [] sz mn mx Hsz Hmn Hmx).
  rewrite Hok. simpl. rewrite Hlen. reflexivity.
Qed.

Lemma execute_propagates_len_error_witness :
  execute keep_frames (fun _ => Raise (Exn "OSError" "connection lost"))
    (Context sample_params [1; 2; 3]%nat) [] =
  (Raise (Exn "OSError" "connection lost"),
   [([1; 2; 3]%nat, resolved_kwargs sample_params (Some (1280, 720)) None None)]).
Proof.
  apply (execute_propagates_len_error keep_frames
           (fun _ => Raise (Exn "OSError" "connection lost"))
           (Context sample_params [1; 2; 3]%nat) _ _ [1; 2; 3]%nat).
  - left. reflexivity.
  - reflexivity.
  - reflexivity.
Defined.

(** ** The forms and the run *)

(** X10.  The input form declares exactly the parameters a run depends
    on.  A key the form does not declare is never read: setting it to
    anything leaves the run as it is.  A key the form declares is read:
    some value for it changes the call that is made. *)
Theorem form_declares_what_execute_reads {View : Type} (ctx : context View)
    (k : string) :
  (~ In k (declared (resolve_input ctx)) ->
   forall (V FramesView : Type)
          (to_frames : V -> to_frames_kwargs -> result FramesView)
          (len : FramesView -> result nat)
          (p : gmap string value) (x : value) (v : V) (log : list (call V)),
     execute to_frames len (Context (<[k:=x]> p) v) log =
     execute to_frames len (Context p v) log) /\
  (In k (declared (resolve_input ctx)) ->
   exists x : value,
     snd (execute keep_frames count_frames (Context (<[k:=x]> ∅) []) []) <>
     snd (execute keep_frames count_frames (Context ∅ []) [])).
Proof.
  rewrite declared_inputs. split.
  - intros Hout V FramesView to_frames len p x v log.
    apply execute_ignores, Hout.
  - intros Hin.
    exists (if String.eqb k "skip_failures" then VBool false else VStr "1,2").
    simpl in Hin.
    repeat (destruct Hin as [<- | Hin]; [intros H; vm_compute in H; discriminate H|]).
    destruct Hin.
Qed.

Lemma form_declares_what_execute_reads_witness :
  execute unreadable count_frames
    (Context (<[ "frame_rate" := VInt 5 ]> sample_params) [1; 2; 3]%nat) [] =
  execute unreadable count_frames (Context sample_params [1; 2; 3]%nat) [] /\
  exists x : value,
    snd (execute keep_frames count_frames (Context (<[ "fps" := x ]> ∅) []) []) <>
    snd (execute keep_frames count_frames (Context ∅ []) []).
Proof.
  split.
  - apply (proj1 (form_declares_what_execute_reads
                    (Context sample_params [1; 2; 3]%nat) "frame_rate")).
    intros Hin. simpl in Hin.
    repeat (destruct Hin as [Hin | Hin]; [discriminate Hin|]). destruct Hin.
  - apply (proj2 (form_declares_what_execute_reads
                    (Context sample_params [1; 2; 3]%nat) "fps")).
    simpl. auto 20.
Defined.

Section FormFacts.

Lemma dict_get_In (k : string) (q : property) (d : object) :
  dict_get k d = Some q -> In (k, q) d.
Proof.
  induction d as [|[k' q'] d IH]; [discriminate|].
  simpl. destruct (String.eqb_spec k' k) as [-> | _].
  - intros [= ->]. left. reflexivity.
  - intros H. right. apply IH, H.
Qed.

(** The declarations of the input form that give a default: the five
    flags. *)
Lemma input_defaults {View : Type} (ctx : context View)
      (name : string) (pr : property) (d : value) :
  dict_get name (form_object (resolve_input ctx)) = Some pr ->
  prop_default pr = Some d ->
  (name = "skip_failures" /\ d = VBool true) \/
  (In name ["sample_frames"; "sparse"; "force_sample"; "verbose"] /\ d = VBool false).
Proof.
  intros Hget%dict_get_In Hd. simpl in Hget.
  repeat (destruct Hget as [[= <- <-] | Hget];
          [simpl in Hd; first [discriminate Hd | injection Hd as <-; simpl; auto 10]|]).
  destruct Hget.
Qed.

(** The declarations of the input form by kind. *)
Lemma input_kinds {View : Type} (ctx : context View) (name : string) (pr : property) :
  dict_get name (form_object (resolve_input ctx)) = Some pr ->
  (In name dimension_fields -> prop_kind pr = KStr).
Proof.
  intros Hget%dict_get_In. simpl in Hget.
  repeat (destruct Hget as [[= <- <-] | Hget];
          [simpl; intros Hin; first [reflexivity | intuition discriminate]|]).
  destruct Hget.
Qed.

End FormFacts.

Local Ltac settle_agree Hnone :=
  apply execute_agree; unfold resolved_kwargs; rewrite ?get_insert;
  simpl (String.eqb _ _); cbv beta iota;
  rewrite ?(get_missing _ _ _ Hnone); reflexivity.

(** X11.  The defaults of the input form are the defaults of a run: for
    each field the form declares with a default, a run in which the
    field is omitted is the run in which it is given that default. *)
Theorem form_defaults_are_execute_defaults {View FramesView : Type}
    (to_frames : View -> to_frames_kwargs -> result FramesView)
    (len : FramesView -> result nat)
    (ctx : context View) (log : list (call View))
    (name : string) (pr : property) (d : value) :
  dict_get name (form_object (resolve_input ctx)) = Some pr ->
  prop_default pr = Some d ->
  params ctx !! name = None ->
  execute to_frames len (Context (<[name:=d]> (params ctx)) (view ctx)) log =
  execute to_frames len ctx log.
Proof.
  intros Hget Hd Hnone. destruct ctx as [p v]. simpl params in *. simpl view.
  destruct (input_defaults _ name pr d Hget Hd) as [[-> ->] | [Hin ->]].
  - settle_agree Hnone.
  - simpl in Hin. destruct Hin as [<- | [<- | [<- | [<- | []]]]]; settle_agree Hnone.
Qed.

Lemma form_defaults_are_execute_defaults_witness :
  execute keep_frames count_frames
    (Context (<[ "skip_failures" := VBool true ]> sample_params) [1; 2; 3]%nat) [] =
  execute keep_frames count_frames (Context sample_params [1; 2; 3]%nat) [].
Proof.
  apply (form_defaults_are_execute_defaults keep_frames count_frames
           (Context sample_params [1; 2; 3]%nat) [] "skip_failures"
           (Property KBool "skip_failures"
              "Continue gracefully if a video cannot be sampled?"
              (Some (VBool true)) None) (VBool true)).
  - reflexivity.
  - reflexivity.
  - reflexivity.
Defined.

(** X12.  For every key but [skip_failures], giving [None] is the same
    as omitting the key: the run is the same run. *)
Theorem execute_none_is_omission {View FramesView : Type}
    (to_frames : View -> to_frames_kwargs -> result FramesView)
    (len : FramesView -> result nat)
    (p : gmap string value) (v : View) (log : list (call View)) (k : string) :
  k <> "skip_failures" ->
  p !! k = None ->
  execute to_frames len (Context (<[k:=VNone]> p) v) log =
  execute to_frames len (Context p v) log.
Proof.
  intros Hk Hnone.
  destruct (in_dec String.string_dec k parameter_names) as [Hin | Hout].
  - simpl in Hin.
    repeat (destruct Hin as [<- | Hin];
            [first [congruence | settle_agree Hnone]|]).
    destruct Hin.
  - apply execute_ignores, Hout.
Qed.

Lemma execute_none_is_omission_witness :
  execute keep_frames count_frames
    (Context (<[ "min_size" := VNone ]> sample_params) [1; 2; 3]%nat) [] =
  execute keep_frames count_frames (Context sample_params [1; 2; 3]%nat) [].
Proof.
  apply (execute_none_is_omission keep_frames count_frames sample_params
           [1; 2; 3]%nat [] "min_size").
  - discriminate.
  - reflexivity.
Defined.

(** The truth value of a float: false for the two zeros, true for every
    other bit pattern. *)
Lemma float_truth (bits : Z) :
  0 <= bits < 2 ^ 64 ->
  Py.truthy (VFloat bits) = negb ((bits =? 0) || (bits =? 2 ^ 63)).
Proof.
  intros Hb. unfold Py.truthy. f_equal.
  change (2 ^ 63 - 1) with (Z.ones 63). rewrite Z.land_ones by lia.
  destruct (Z.eqb_spec bits 0) as [-> | H0]; [reflexivity|].
  destruct (Z.eqb_spec bits (2 ^ 63)) as [-> | H1]; [reflexivity|].
  simpl orb. apply Z.eqb_neq.
  destruct (Z_lt_le_dec bits (2 ^ 63)) as [Hlt | Hge].
  - rewrite Z.mod_small by lia. exact H0.
  - replace bits with (bits - 2 ^ 63 + 1 * 2 ^ 63) by ring.
    rewrite Z.mod_add by lia. rewrite Z.mod_small by lia. lia.
Qed.

(** X13.  A flag that is present is passed as the truth value of what
    was given, whatever its type.  [None], [False], the integer 0, the
    floats 0.0 and -0.0, the empty string, the empty list and the empty
    dictionary switch a flag off, [skip_failures] included; every other
    value, the string 'false' included, switches it on. *)
Theorem execute_flags_by_truth {View FramesView : Type}
    (to_frames : View -> to_frames_kwargs -> result FramesView)
    (len : FramesView -> result nat)
    (ctx : context View) (v : View) (kw : to_frames_kwargs)
    (field : string) (x : value) :
  In (v, kw) (snd (execute to_frames len ctx [])) ->
  In field flag_fields ->
  params ctx !! field = Some x ->
  (x = VNone -> flag_kwarg field kw = false) /\
  (forall b, x = VBool b -> flag_kwarg field kw = b) /\
  (forall z, x = VInt z -> flag_kwarg field kw = negb (z =? 0)) /\
  (forall bits, 0 <= bits < 2 ^ 64 -> x = VFloat bits ->
                flag_kwarg field kw = negb ((bits =? 0) || (bits =? 2 ^ 63))) /\
  (x = VStr EmptyString -> flag_kwarg field kw = false) /\
  (forall s, s <> EmptyString -> x = VStr s -> flag_kwarg field kw = true) /\
  (x = VList [] -> flag_kwarg field kw = false) /\
  (forall item items, x = VList (item :: items) -> flag_kwarg field kw = true) /\
  (x = VDict [] -> flag_kwarg field kw = false) /\
  (forall entry entries, x = VDict (entry :: entries) -> flag_kwarg field kw = true).
Proof.
  intros Hcall Hin Hx.
  destruct (execute_calls to_frames len ctx v kw Hcall)
    as (sz & mn & mx & _ & _ & _ & _ & ->).
  assert (Hflag : flag_kwarg field (resolved_kwargs (params ctx) sz mn mx)
                  = Py.truthy x).
  { simpl in Hin. destruct Hin as [<- | [<- | [<- | [<- | [<- | []]]]]];
      unfold flag_kwarg; simpl (String.eqb _ _); cbv beta iota;
      unfold resolved_kwargs, get;
      cbn [sample_frames sparse force_sample skip_failures verbose];
      rewrite Hx; reflexivity. }
  rewrite Hflag. clear Hflag Hcall Hx.
  repeat split.
  - intros ->. reflexivity.
  - intros b ->. reflexivity.
  - intros z ->. reflexivity.
  - intros bits Hb ->. apply float_truth, Hb.
  - intros ->. reflexivity.
  - intros s Hs ->. simpl. destruct (String.eqb_spec s ""); [contradiction | reflexivity].
  - intros ->. reflexivity.
  - intros item items ->. reflexivity.
  - intros ->. reflexivity.
  - intros entry entries ->. reflexivity.
Qed.

Lemma execute_flags_by_truth_witness :
  skip_failures
    (resolved_kwargs (<[ "skip_failures" := VInt 0 ]> sample_params)
       (Some (1280, 720)) None None) = false /\
  skip_failures
    (resolved_kwargs (<[ "skip_failures" := VStr EmptyString ]> sample_params)
       (Some (1280, 720)) None None) = false /\
  verbose
    (resolved_kwargs (<[ "verbose" := VStr "false" ]> sample_params)
       (Some (1280, 720)) None None) = true.
Proof.
  split; [|split].
  - refine (proj1 (proj2 (proj2
        (execute_flags_by_truth keep_frames count_frames
           (Context (<[ "skip_failures" := VInt 0 ]> sample_params) [1; 2; 3]%nat)
           [1; 2; 3]%nat
           (resolved_kwargs (<[ "skip_failures" := VInt 0 ]> sample_params)
              (Some (1280, 720)) None None)
           "skip_failures" (VInt 0) _ _ _))) 0 eq_refl).
    + left. reflexivity.
    + simpl. auto.
    + reflexivity.
  - refine (proj1 (proj2 (proj2 (proj2 (proj2
        (execute_flags_by_truth keep_frames count_frames
           (Context (<[ "skip_failures" := VStr EmptyString ]> sample_params)
                    [1; 2; 3]%nat)
           [1; 2; 3]%nat
           (resolved_kwargs (<[ "skip_failures" := VStr EmptyString ]> sample_params)
              (Some (1280, 720)) None None)
           "skip_failures" (VStr EmptyString) _ _ _))))) eq_refl).
    + left. reflexivity.
    + simpl. auto.
    + reflexivity.
  - refine (proj1 (proj2 (proj2 (proj2 (proj2 (proj2
        (execute_flags_by_truth keep_frames count_frames
           (Context (<[ "verbose" := VStr "false" ]> sample_params) [1; 2; 3]%nat)
           [1; 2; 3]%nat
           (resolved_kwargs (<[ "verbose" := VStr "false" ]> sample_params)
              (Some (1280, 720)) None None)
           "verbose" (VStr "false") _ _ _)))))) "false" _ eq_refl).
    + left. reflexivity.
    + simpl. auto 10.
    + reflexivity.
    + discriminate.
Defined.

(** X14.  The three string fields are passed as given or as [None]:
    a call never carries a false value other than [None] for them, and
    a non-empty string is passed unchanged, white space and all (it is
    not trimmed as a dimension string is). *)
Theorem execute_string_fields_verbatim {View FramesView : Type}
    (to_frames : View -> to_frames_kwargs -> result FramesView)
    (len : FramesView -> result nat)
    (ctx : context View) (v : View) (kw : to_frames_kwargs) (field : string) :
  In (v, kw) (snd (execute to_frames len ctx [])) ->
  In field string_fields ->
  (string_kwarg field kw = VNone \/
   (Py.truthy (string_kwarg field kw) = true /\
    params ctx !! field = Some (string_kwarg field kw))) /\
  (forall s, params ctx !! field = Some (VStr s) -> s <> EmptyString ->
             string_kwarg field kw = VStr s).
Proof.
  intros Hcall Hin.
  destruct (execute_calls to_frames len ctx v kw Hcall)
    as (sz & mn & mx & _ & _ & _ & _ & ->).
  assert (Hor : forall o : option value,
             (Py.or_none (default VNone o) = VNone \/
              (Py.truthy (Py.or_none (default VNone o)) = true /\
               o = Some (Py.or_none (default VNone o)))) /\
             (forall s, o = Some (VStr s) -> s <> EmptyString ->
                        Py.or_none (default VNone o) = VStr s)).
  { intros [x|]; simpl; unfold Py.or_none.
    - destruct (Py.truthy x) eqn:Ex.
      + split; [right; rewrite Ex; auto|]. intros s [= ->] _. reflexivity.
      + split; [left; reflexivity|]. intros s [= ->] Hs. simpl in Ex.
        apply negb_false_iff, String.eqb_eq in Ex. contradiction.
    - split; [left; reflexivity | discriminate]. }
  simpl in Hin. destruct Hin as [<- | [<- | [<- | []]]];
    unfold string_kwarg; simpl (String.eqb _ _); cbv beta iota;
    unfold resolved_kwargs, get; cbn [output_dir rel_dir frames_patt]; apply Hor.
Qed.

Lemma execute_string_fields_verbatim_witness :
  rel_dir
    (resolved_kwargs (<[ "rel_dir" := VStr " /data " ]> sample_params)
       (Some (1280, 720)) None None) = VStr " /data ".
Proof.
  refine (proj2 (execute_string_fields_verbatim keep_frames count_frames
                   (Context (<[ "rel_dir" := VStr " /data " ]> sample_params) [1; 2; 3]%nat)
                   [1; 2; 3]%nat
                   (resolved_kwargs (<[ "rel_dir" := VStr " /data " ]> sample_params)
                      (Some (1280, 720)) None None)
                   "rel_dir" _ _) " /data " _ _).
  - left. reflexivity.
  - simpl. auto.
  - reflexivity.
  - discriminate.
Defined.

Section OutcomeFacts.

Context {View FramesView : Type}.
Variable to_frames : View -> to_frames_kwargs -> result FramesView.
Variable len : FramesView -> result nat.

(** A run that succeeds answers with the summary of some count. *)
Lemma execute_success_summary (ctx : context View) (log trace : list (call View))
      (r : gmap string value) :
  execute to_frames len ctx log = (Ok r, trace) -> exists n, r = summary n.
Proof.
  rewrite execute_unfold.
  destruct (_parse_wh (get (params ctx) "size" VNone)); [|discriminate].
  destruct (_parse_wh (get (params ctx) "min_size" VNone)); [|discriminate].
  destruct (_parse_wh (get (params ctx) "max_size" VNone)); [|discriminate].
  cbv zeta. destruct (to_frames _ _) as [fv|]; simpl; [|discriminate].
  destruct (len fv) as [n|]; simpl; [|discriminate].
  intros [= <- _]. exists n. reflexivity.
Qed.

(** Under a conforming parameter set a dimension field that fails to
    parse holds a string, and the error is a [ValueError]. *)
Lemma conforming_dimension_error (ctx : context View) (field : string) (e : exn) :
  conforms (resolve_input ctx) (params ctx) ->
  In field dimension_fields ->
  _parse_wh (get (params ctx) field VNone) = Raise e ->
  exn_class e = "ValueError" /\
  exists s, params ctx !! field = Some (VStr s) /\ _parse_wh (VStr s) = Raise e.
Proof.
  intros Hconf Hin. unfold get.
  destruct (params ctx !! field) as [x|] eqn:Ex; simpl; [|discriminate].
  destruct (Hconf field x Ex) as [-> | (pr & Hpr & Hfit)]; [discriminate|].
  rewrite (input_kinds ctx field pr Hpr Hin) in Hfit.
  destruct x; try discriminate Hfit.
  intros He. split; [apply (parse_wh_str_error _ _ He) | eauto].
Qed.

End OutcomeFacts.

(** X15.  What a successful run returns fits the output form: its keys
    are exactly the fields [resolve_output] declares, and each value
    fits the kind its field is declared with (an integer for
    [num_frames]). *)
Theorem result_fits_output_form {View FramesView : Type}
    (to_frames : View -> to_frames_kwargs -> result FramesView)
    (len : FramesView -> result nat)
    (ctx : context View) (r : gmap string value) (trace : list (call View))
    (k : string) :
  execute to_frames len ctx [] = (Ok r, trace) ->
  (is_Some (r !! k) <-> In k (declared (resolve_output ctx))) /\
  (forall x, r !! k = Some x ->
     exists pr, dict_get k (form_object (resolve_output ctx)) = Some pr /\
                fits (prop_kind pr) x = true).
Proof.
  intros Hrun. destruct (execute_success_summary _ _ _ _ _ _ Hrun) as [n ->].
  unfold summary. split.
  - split.
    + intros [x Hx]. apply lookup_singleton_Some in Hx as [<- _]. left. reflexivity.
    + intros [<- | []]. rewrite lookup_singleton_eq. eauto.
  - intros x Hx. apply lookup_singleton_Some in Hx as [<- <-].
    eexists. split; reflexivity.
Qed.

Lemma result_fits_output_form_witness :
  (is_Some (summary 3 !! "num_frames") <->
   In "num_frames" (declared (resolve_output (Context sample_params [1; 2; 3]%nat)))) /\
  (forall x, summary 3 !! "num_frames" = Some x ->
     exists pr,
       dict_get "num_frames"
         (form_object (resolve_output (Context sample_params [1; 2; 3]%nat))) = Some pr /\
       fits (prop_kind pr) x = true).
Proof.
  apply (result_fits_output_form keep_frames count_frames
           (Context sample_params [1; 2; 3]%nat) (summary 3)
           [([1; 2; 3]%nat, resolved_kwargs sample_params (Some (1280, 720)) None None)]
           "num_frames").
  reflexivity.
Defined.

(** X16.  A run that is given none of the thirteen parameters raises no
    parse error and makes its one call with every optional argument
    [None], [skip_failures] on and the other flags off; keys that are no
    parameters do not change this. *)
Theorem execute_without_parameters {View FramesView : Type}
    (to_frames : View -> to_frames_kwargs -> result FramesView)
    (len : FramesView -> result nat)
    (p : gmap string value) (v : View) (log : list (call View)) :
  (forall name, In name parameter_names -> p !! name = None) ->
  execute to_frames len (Context p v) log =
  (rbind (to_frames v default_kwargs) (fun frames_view =>
   rbind (len frames_view) (fun n =>
   Ok {[ "num_frames" := VInt (Z.of_nat n) ]})),
   log ++ [(v, default_kwargs)]).
Proof.
  intros Hnone.
  assert (Hget : forall name d, In name parameter_names -> get p name d = d).
  { intros name d Hin. apply get_missing, Hnone, Hin. }
  rewrite execute_unfold. simpl params. simpl view.
  unfold resolved_kwargs. rewrite !Hget by (simpl; auto 20). reflexivity.
Qed.

Lemma execute_without_parameters_witness :
  execute keep_frames count_frames
    (Context (<[ "frame_rate" := VInt 5 ]> ∅) [1; 2; 3]%nat) [] =
  (Ok {[ "num_frames" := VInt 3 ]}, [([1; 2; 3]%nat, default_kwargs)]).
Proof.
  apply (execute_without_parameters keep_frames count_frames
           (<[ "frame_rate" := VInt 5 ]> ∅) [1; 2; 3]%nat []).
  intros name Hin. simpl in Hin.
  repeat (destruct Hin as [<- | Hin]; [reflexivity|]). destruct Hin.
Defined.

(** X17.  When the parameters respect the input form (each value given
    is [None] or of the kind its field is declared with), a run that
    ends before the call ends in a [ValueError], raised by the parser on
    the string of a dimension field: no other error can come from the
    operator itself. *)
Theorem conforming_run_raises_value_error {View FramesView : Type}
    (to_frames : View -> to_frames_kwargs -> result FramesView)
    (len : FramesView -> result nat)
    (ctx : context View) (log : list (call View)) (e : exn) :
  conforms (resolve_input ctx) (params ctx) ->
  execute to_frames len ctx log = (Raise e, log) ->
  exn_class e = "ValueError" /\
  exists field s,
    In field dimension_fields /\ params ctx !! field = Some (VStr s) /\
    _parse_wh (VStr s) = Raise e.
Proof.
  intros Hconf. rewrite execute_unfold.
  destruct (_parse_wh (get (params ctx) "size" VNone)) as [sz|e1] eqn:E1.
  2:{ intros [= <-].
      destruct (conforming_dimension_error ctx "size" e1 Hconf) as (Hc & s & Hs & He);
        [simpl; auto | exact E1 |].
      split; [exact Hc|]. exists "size", s. simpl. auto. }
  destruct (_parse_wh (get (params ctx) "min_size" VNone)) as [mn|e2] eqn:E2.
  2:{ intros [= <-].
      destruct (conforming_dimension_error ctx "min_size" e2 Hconf) as (Hc & s & Hs & He);
        [simpl; auto | exact E2 |].
      split; [exact Hc|]. exists "min_size", s. simpl. auto. }
  destruct (_parse_wh (get (params ctx) "max_size" VNone)) as [mx|e3] eqn:E3.
  2:{ intros [= <-].
      destruct (conforming_dimension_error ctx "max_size" e3 Hconf) as (Hc & s & Hs & He);
        [simpl; auto | exact E3 |].
      split; [exact Hc|]. exists "max_size", s. simpl. auto. }
  cbv zeta. intros [= _ Hlog]. destruct (log_grows _ _ Hlog).
Qed.

Lemma conforming_run_raises_value_error_witness :
  exn_class (ValueError "Invalid width,height string: '640'") = "ValueError" /\
  exists field s,
    In field dimension_fields /\
    (<[ "size" := VStr "640" ]> ∅ : gmap string value) !! field = Some (VStr s) /\
    _parse_wh (VStr s) = Raise (ValueError "Invalid width,height string: '640'").
Proof.
  refine (conforming_run_raises_value_error keep_frames count_frames
            (Context (<[ "size" := VStr "640" ]> ∅) [1; 2; 3]%nat) []
            (ValueError "Invalid width,height string: '640'") _ _).
  - intros k x Hx.
    assert (Hx' : (<[ "size" := VStr "640" ]> (∅ : gmap string value)) !! k = Some x)
      by exact Hx.
    clear Hx. apply lookup_insert_Some in Hx' as [[<- <-] | [_ Hx]].
    + right. eexists. split; reflexivity.
    + rewrite lookup_empty in Hx. discriminate Hx.
  - reflexivity.
Defined.

(** ** The alphabet of a dimension string *)

Section AlphabetFacts.

Lemma int_space_isspace (c : ascii) : Py.int_space c = true -> Py.isspace c = true.
Proof.
  unfold Py.int_space, Py.isspace. cbv zeta. intros H.
  repeat match type of H with
         | (_ || _) = true => apply orb_prop in H as [H | H]
         | (_ && _) = true => apply andb_prop in H as [? H]
         end;
    repeat match goal with
           | H : (_ <=? _)%N = true |- _ => apply N.leb_le in H
           | H : (_ =? _)%N = true |- _ => apply N.eqb_eq in H
           end.
  - replace ((9 <=? Py.code c)%N) with true by (symmetry; apply N.leb_le; lia).
    replace ((Py.code c <=? 13)%N) with true by (symmetry; apply N.leb_le; lia).
    reflexivity.
  - rewrite H. reflexivity.
  - rewrite H. reflexivity.
  - rewrite H. reflexivity.
Qed.

Lemma skip_space_split (s : string) :
  exists w, s = w +:+ Py.skip_space s /\ string_forall Py.isspace w = true.
Proof.
  induction s as [|c s (w & Hs & Hw)].
  - exists EmptyString. split; reflexivity.
  - simpl. destruct (Py.int_space c) eqn:Ec.
    + exists (String c w). split; [rewrite app_cons, <- Hs; reflexivity|].
      simpl. rewrite (int_space_isspace c Ec), Hw. reflexivity.
    + exists EmptyString. split; reflexivity.
Qed.

Lemma take_sign_split (s : string) :
  exists sgn, s = sgn +:+ snd (Py.take_sign s) /\
              string_forall dimension_char sgn = true.
Proof.
  destruct s as [|c r]; [exists EmptyString; split; reflexivity|].
  unfold Py.take_sign. destruct (Ascii.eqb c "-") eqn:Em.
  - exists (String c EmptyString). split; [reflexivity|].
    simpl. unfold dimension_char. rewrite Em. rewrite !orb_true_r. reflexivity.
  - destruct (Ascii.eqb c "+") eqn:Ep.
    + exists (String c EmptyString). split; [reflexivity|].
      simpl. unfold dimension_char. rewrite Ep. rewrite !orb_true_r. reflexivity.
    + exists EmptyString. split; reflexivity.
Qed.

Lemma scan_digits_split (s : string) :
  forall prev_us acc n v m rest,
    Py.scan_digits prev_us acc n s = Some (v, m, rest) ->
    exists pre, s = pre +:+ rest /\ string_forall dimension_char pre = true.
Proof.
  induction s as [|c s IH]; intros prev_us acc n v m rest; simpl.
  - destruct prev_us; [discriminate|]. intros [= _ _ <-].
    exists EmptyString. split; reflexivity.
  - destruct (Ascii.eqb c "_") eqn:Eu.
    + destruct prev_us; [discriminate|]. intros H.
      destruct (IH _ _ _ _ _ _ H) as (pre & -> & Hpre).
      exists (String c pre). split; [reflexivity|].
      simpl. rewrite Hpre. unfold dimension_char. rewrite Eu.
      rewrite !orb_true_r. reflexivity.
    + destruct (Py.digit_value c) as [d|] eqn:Ed.
      * intros H. destruct (IH _ _ _ _ _ _ H) as (pre & -> & Hpre).
        exists (String c pre). split; [reflexivity|].
        simpl. rewrite Hpre. unfold dimension_char.
        unfold Py.digit_value in Ed. cbv zeta in Ed. unfold is_digit.
        destruct ((48 <=? Py.code c)%N && (Py.code c <=? 57)%N); [reflexivity | discriminate].
      * destruct prev_us; [discriminate|]. intros [= _ _ <-].
        exists EmptyString. split; reflexivity.
Qed.

Lemma blank_dimension_chars (w : string) :
  string_forall Py.isspace w = true -> string_forall dimension_char w = true.
Proof.
  apply string_forall_impl. intros c Hc. unfold dimension_char. rewrite Hc.
  rewrite !orb_true_r. reflexivity.
Qed.

(** [int()] reads nothing but digits, a sign, underscores and white
    space. *)
Lemma int_alphabet (t : string) (z : Z) :
  Py.int t = Ok z -> string_forall dimension_char t = true.
Proof.
  unfold Py.int.
  destruct (skip_space_split t) as (w & Ht & Hw).
  destruct (take_sign_split (Py.skip_space t)) as (sgn & Hbody & Hsgn).
  destruct (Py.take_sign (Py.skip_space t)) as [negative digits]. simpl in Hbody.
  destruct (Py.starts_with "_" digits); [discriminate|].
  destruct (Py.scan_digits false 0 0 digits) as [[[v n] rest]|] eqn:Escan; [|discriminate].
  destruct (Py.over_limit n); [discriminate|].
  destruct (Nat.eqb n 0); [discriminate|].
  destruct (String.eqb (Py.skip_space rest) "") eqn:Erest; [|discriminate].
  intros _. apply String.eqb_eq in Erest.
  destruct (scan_digits_split _ _ _ _ _ _ _ Escan) as (pre & Hd & Hpre).
  destruct (skip_space_split rest) as (w' & Hr & Hw').
  rewrite Erest, app_empty_r in Hr. subst w'.
  rewrite Ht, Hbody, Hd. rewrite !string_forall_app.
  rewrite (blank_dimension_chars w Hw), Hsgn, Hpre, (blank_dimension_chars rest Hw').
  reflexivity.
Qed.

(** Trimming keeps the characters of a string. *)
Lemma strip_keeps (p : ascii -> bool) (s : string) :
  (forall c, Py.isspace c = true -> p c = true) ->
  string_forall p (Py.strip s) = true -> string_forall p s = true.
Proof.
  intros Hsp Hs.
  destruct (lstrip_prefix s) as (w0 & H0 & Hl).
  destruct (rstrip_suffix (Py.lstrip s)) as (w3 & H3 & Hr).
  fold (Py.strip s) in Hr. rewrite Hl, Hr, !string_forall_app, Hs.
  rewrite (string_forall_impl _ p w0 Hsp H0), (string_forall_impl _ p w3 Hsp H3).
  reflexivity.
Qed.

End AlphabetFacts.

(** X18.  A dimension string that parses to a pair holds nothing but
    digits, signs, underscores, the comma and white space: a decimal
    point, an exponent, a hexadecimal prefix or any letter makes the
    parser raise. *)
Theorem parse_wh_pair_alphabet (s : string) (w h : Z) :
  _parse_wh (VStr s) = Ok (Some (w, h)) ->
  string_forall dimension_char s = true.
Proof.
  assert (Hsp : forall c, Py.isspace c = true -> dimension_char c = true).
  { intros c Hc. unfold dimension_char. rewrite Hc. rewrite !orb_true_r. reflexivity. }
  rewrite parse_wh_str. destruct (String.eqb (Py.strip s) ""); [discriminate|].
  intros Hp. destruct (parse_trimmed_pair _ _ Hp)
    as (a & b & w' & h' & _ & Hab & _ & _ & Hw & Hh).
  apply (strip_keeps _ s Hsp). rewrite Hab, string_forall_app. simpl.
  rewrite (strip_keeps _ a Hsp (int_alphabet _ _ Hw)).
  rewrite (strip_keeps _ b Hsp (int_alphabet _ _ Hh)).
  reflexivity.
Qed.

Lemma parse_wh_pair_alphabet_witness :
  string_forall dimension_char " -1 , 7_20 " = true /\
  string_forall dimension_char "640.0,480" = false.
Proof.
  split; [|reflexivity].
  apply (parse_wh_pair_alphabet " -1 , 7_20 " (-1) 720). reflexivity.
Defined.
